(** * Presigned-URL service (FmsService) and its controller

    A shallow embedding of
      backend/src/features/fms/fms.service.ts
      backend/src/features/fms/fms.controller.ts
    and the properties of the validation, signing and URL-rewriting code. *)

From Stdlib Require Import ZArith QArith Qround Qabs Lia Floats.
From Stdlib Require Import Strings.String Strings.Ascii DecimalString.
From stdpp Require Import base option list strings gmap.

Local Open Scope string_scope.

(** ** JavaScript values used by the service *)

Module Js.

(** A JavaScript [number] is an IEEE 754 binary64 value, which is what the
    kernel's [float] is: [nan], [infinity], [neg_infinity], the two zeros
    and the finite doubles, with the comparisons, the product and the
    quotient of the standard. *)
Abbreviation number := PrimFloat.float.

(** [!x]: a number is falsy when it is [+0], [-0] or [NaN]. *)
Definition falsy (x : number) : bool :=
  PrimFloat.is_zero x || PrimFloat.is_nan x.

(** [x <= y] and [x < y]; every comparison with [NaN] is false. *)
Definition le (x y : number) : bool := PrimFloat.leb x y.

Definition lt (x y : number) : bool := PrimFloat.ltb x y.

(** [x > y] is [y < x]. *)
Definition gt (x y : number) : bool := PrimFloat.ltb y x.

(** A value of type [string | undefined] is truthy when it is a non-empty
    string. *)
Definition truthy (s : option string) : bool :=
  match s with
  | Some (String _ _) => true
  | _ => false
  end.

(** [a || b] on [string | undefined]. *)
Definition or_else (a b : option string) : option string :=
  if truthy a then a else b.

(** [a || d] with a string literal default. *)
Definition or_default (a : option string) (d : string) : string :=
  match a with
  | Some (String _ _ as s) => s
  | _ => d
  end.

(** Interpolation of a [string | undefined] in a template literal. *)
Definition show (s : option string) : string :=
  match s with
  | Some v => v
  | None => "undefined"
  end.

(** [StringIndexOf(s, search, 0)]: the least position at which [search]
    occurs in [s]. *)
Fixpoint StringIndexOf (s search : string) : option nat :=
  if String.prefix search s then Some 0
  else match s with
       | EmptyString => None
       | String _ s' => option_map S (StringIndexOf s' search)
       end.

(** [GetSubstitution] for a string pattern: there are no captures, so [$n]
    and [$<] stand for themselves, and the patterns that are expanded are
    [$$], [$&], [$`] and [$']. *)
Fixpoint GetSubstitution (matched preceding following template : string)
  : string :=
  match template with
  | EmptyString => EmptyString
  | String c tl =>
      if Ascii.eqb c "$" then
        match tl with
        | String d rest =>
            if Ascii.eqb d "$" then
              String "$" (GetSubstitution matched preceding following rest)
            else if Ascii.eqb d "&" then
              matched ++ GetSubstitution matched preceding following rest
            else if Ascii.eqb d "`" then
              preceding ++ GetSubstitution matched preceding following rest
            else if Ascii.eqb d "'" then
              following ++ GetSubstitution matched preceding following rest
            else String c (GetSubstitution matched preceding following tl)
        | EmptyString => String c EmptyString
        end
      else String c (GetSubstitution matched preceding following tl)
  end.

(** [s.replace(searchValue, replaceValue)] with two strings. *)
Definition replace (s searchValue replaceValue : string) : string :=
  match StringIndexOf s searchValue with
  | None => s
  | Some position =>
      let preceding := String.substring 0 position s in
      let following :=
        String.substring (position + String.length searchValue)
          (String.length s - (position + String.length searchValue)) s in
      preceding
        ++ GetSubstitution searchValue preceding following replaceValue
        ++ following
  end.

(** [xs.join(sep)]. *)
Definition join (sep : string) (xs : list string) : string :=
  String.concat sep xs.

(** [xs.includes(x)] on an array of strings. *)
Definition includes (xs : list string) (x : string) : bool :=
  existsb (String.eqb x) xs.

End Js.

(** ** The AWS SDK as seen by the service *)

Module Sdk.

Record Credentials : Type := {
  accessKeyId : string;
  secretAccessKey : string;
}.

(** The configuration object given to [new S3Client(...)].  [endpoint] and
    [forcePathStyle] are present only when the LocalStack object is spread
    into the configuration. *)
Record S3Client : Type := {
  region : string;
  credentials : Credentials;
  endpoint : option string;
  forcePathStyle : option bool;
}.

Module PutObject.
Record Input : Type := {
  Bucket : string;
  Key : string;
  ContentType : string;
  ContentLength : Js.number;
}.
End PutObject.

Module GetObject.
Record Input : Type := { Bucket : string; Key : string }.
End GetObject.

Module DeleteObject.
Record Input : Type := { Bucket : string; Key : string }.
End DeleteObject.

Inductive Command : Type :=
| PutObjectCommand (input : PutObject.Input)
| GetObjectCommand (input : GetObject.Input)
| DeleteObjectCommand (input : DeleteObject.Input).

(** The calls the service makes into the SDK: [getSignedUrl(client, command,
    { expiresIn })] and [client.send(command)]. *)
Inductive Call : Type :=
| getSignedUrl (client : S3Client) (command : Command) (expiresIn : Z)
| send (client : S3Client) (command : Command).

End Sdk.

(** What lies outside the repository: how the SDK answers a call, given the
    calls made before it ([inl] resolves, [inr] rejects with the SDK's error
    message), and the two number formatters of the language runtime used in
    the error text. *)
Class Runtime : Type := {
  getSignedUrl_answer : list Sdk.Call -> Sdk.S3Client -> Sdk.Command -> Z -> string + string;
  send_answer : list Sdk.Call -> Sdk.S3Client -> Sdk.Command -> unit + string;
  Number_toFixed : Js.number -> nat -> string;
  Number_toString : Js.number -> string;
}.

(** ** Exceptions, results and the effect of a method *)

Inductive Exception : Type :=
| BadRequestException (message : string)
| SdkError (message : string).

(** The result of a synchronous call (returned or thrown) and of an awaited
    promise (resolved or rejected). *)
Inductive Outcome (A : Type) : Type :=
| Returned (a : A)
| Thrown (e : Exception).

Arguments Returned {A} a.
Arguments Thrown {A} e.

(** An asynchronous method reads the SDK calls made so far and yields its
    outcome together with the SDK calls it made itself, in order. *)
Definition Async (A : Type) : Type :=
  list Sdk.Call -> Outcome A * list Sdk.Call.

Definition resolve {A : Type} (a : A) : Async A :=
  fun _ => (Returned a, []).

Definition bind {A B : Type} (m : Async A) (k : A -> Async B) : Async B :=
  fun history =>
    match m history with
    | (Returned a, made) =>
        let '(r, made') := k a (history ++ made)%list in
        (r, (made ++ made')%list)
    | (Thrown e, made) => (Thrown e, made)
    end.

(** A synchronous call inside an [async] function: a throw rejects the
    promise. *)
Definition sync {A : Type} (o : Outcome A) : Async A :=
  fun _ => (o, []).

Declare Scope async_scope.
Delimit Scope async_scope with async.
Notation "x <- m ;; k" := (bind m (fun x => k))
  (at level 100, m at next level, right associativity) : async_scope.
Notation "m ;;; k" := (bind m (fun _ => k))
  (at level 100, right associativity) : async_scope.

Definition outcome {A : Type} (m : Async A) (history : list Sdk.Call)
  : Outcome A := fst (m history).

Definition calls {A : Type} (m : Async A) (history : list Sdk.Call)
  : list Sdk.Call := snd (m history).

Definition of_answer {A : Type} (a : A + string) : Outcome A :=
  match a with
  | inl v => Returned v
  | inr msg => Thrown (SdkError msg)
  end.

(** [await getSignedUrl(client, command, { expiresIn })]. *)
Definition await_getSignedUrl `{Runtime}
    (client : Sdk.S3Client) (command : Sdk.Command) (expiresIn : Z)
  : Async string :=
  fun history =>
    (of_answer (getSignedUrl_answer history client command expiresIn),
     [Sdk.getSignedUrl client command expiresIn]).

(** [await client.send(command)]; the service ignores the output. *)
Definition await_send `{Runtime}
    (client : Sdk.S3Client) (command : Sdk.Command) : Async unit :=
  fun history =>
    (of_answer (send_answer history client command),
     [Sdk.send client command]).

(** ** fms.service.ts *)

Definition ALLOWED_MIME_TYPES : list string :=
  ["image/jpeg"; "image/jpg"; "image/png"; "image/webp"].

Definition MAX_FILE_SIZE_BYTES : Js.number := (5 * 1024 * 1024)%float.

Module FmsService.

(** The fields of the class; all of them are [readonly].  The logger is
    written to only by the constructor (see [constructor_log]). *)
Record t : Type := {
  s3Client : Sdk.S3Client;
  bucketName : string;
  internalEndpoint : option string;
  publicEndpoint : option string;
}.

(** [constructor()], reading [process.env]. *)
Definition constructor (env : gmap string string) : t :=
  let internalEndpoint := env !! "S3_ENDPOINT" in
  let publicEndpoint :=
    Js.or_else (env !! "S3_PUBLIC_ENDPOINT") internalEndpoint in
  let isLocalStack := Js.truthy internalEndpoint in
  {| s3Client :=
       {| Sdk.region := Js.or_default (env !! "AWS_BUCKET_REGION") "us-east-1";
          Sdk.credentials :=
            {| Sdk.accessKeyId := Js.or_default (env !! "AWS_ACCESS_KEY") "test";
               Sdk.secretAccessKey :=
                 Js.or_default (env !! "AWS_SECRET_KEY") "test" |};
          Sdk.endpoint := if isLocalStack then internalEndpoint else None;
          Sdk.forcePathStyle := if isLocalStack then Some true else None |};
     bucketName := Js.or_default (env !! "AWS_BUCKET_NAME") "demo-bucket";
     internalEndpoint := internalEndpoint;
     publicEndpoint := publicEndpoint |}.

(** The line the constructor writes to the logger. *)
Definition constructor_log (env : gmap string string) : string :=
  let self := constructor env in
  if Js.truthy (internalEndpoint self) then
    "Using LocalStack S3 (internal: " ++ Js.show (internalEndpoint self)
      ++ ", public: " ++ Js.show (publicEndpoint self) ++ ")"
  else "Using AWS S3".

(** The guard [this.internalEndpoint && this.publicEndpoint] holds when both
    are non-empty strings. *)
Definition toPublicUrl (self : t) (url : string) : string :=
  match internalEndpoint self, publicEndpoint self with
  | Some (String _ _ as internal), Some (String _ _ as public) =>
      Js.replace url internal public
  | _, _ => url
  end.

Definition validateContentType (contentType : string) : Outcome unit :=
  if negb (Js.includes ALLOWED_MIME_TYPES contentType) then
    Thrown (BadRequestException
      ("Invalid file type: " ++ contentType ++ ". Allowed types: "
         ++ Js.join ", " ALLOWED_MIME_TYPES))
  else Returned tt.

Definition validateFileSize `{Runtime} (fileSize : Js.number) : Outcome unit :=
  if Js.falsy fileSize || Js.le fileSize 0%float then
    Thrown (BadRequestException "File size must be a positive number")
  else if Js.gt fileSize MAX_FILE_SIZE_BYTES then
    let maxSizeMB := (MAX_FILE_SIZE_BYTES / (1024 * 1024))%float in
    let fileSizeMB :=
      Number_toFixed (fileSize / (1024 * 1024))%float 2 in
    Thrown (BadRequestException
      ("File size (" ++ fileSizeMB ++ "MB) exceeds maximum allowed size ("
         ++ Number_toString maxSizeMB ++ "MB)"))
  else Returned tt.

Definition getPreSignedURL `{Runtime}
    (self : t) (key contentType : string) (fileSize : Js.number)
  : Async string :=
  (sync (validateContentType contentType) ;;;
   sync (validateFileSize fileSize) ;;;
   let command :=
     Sdk.PutObjectCommand
       {| Sdk.PutObject.Bucket := bucketName self;
          Sdk.PutObject.Key := key;
          Sdk.PutObject.ContentType := contentType;
          Sdk.PutObject.ContentLength := fileSize |} in
   url <- await_getSignedUrl (s3Client self) command 1800 ;;
   resolve (toPublicUrl self url))%async.

Definition getPreSignedURLToViewObject `{Runtime} (self : t) (key : string)
  : Async string :=
  (let command :=
     Sdk.GetObjectCommand
       {| Sdk.GetObject.Bucket := bucketName self;
          Sdk.GetObject.Key := key |} in
   url <- await_getSignedUrl (s3Client self) command 300 ;;
   resolve (toPublicUrl self url))%async.

Definition deleteObject `{Runtime} (self : t) (key : string) : Async unit :=
  (let command :=
     Sdk.DeleteObjectCommand
       {| Sdk.DeleteObject.Bucket := bucketName self;
          Sdk.DeleteObject.Key := key |} in
   await_send (s3Client self) command)%async.

End FmsService.

(** ** fms.controller.ts *)

Module FmsController.

Record t : Type := { fmsService : FmsService.t }.

Record UploadConstraints : Type := {
  allowedMimeTypes : list string;
  maxFileSizeBytes : Js.number;
  maxFileSizeMB : Js.number;
}.

Definition getUploadConstraints (self : t) : UploadConstraints :=
  {| allowedMimeTypes := ALLOWED_MIME_TYPES;
     maxFileSizeBytes := MAX_FILE_SIZE_BYTES;
     maxFileSizeMB := (MAX_FILE_SIZE_BYTES / (1024 * 1024))%float |}.

(** [fileSize] is the number [ParseIntPipe] made of the query parameter
    before the handler runs. *)
Definition getPreSignedURL `{Runtime}
    (self : t) (key contentType : string) (fileSize : Js.number)
  : Async string :=
  FmsService.getPreSignedURL (fmsService self) key contentType fileSize.

Definition getPreSignedURLToViewObject `{Runtime} (self : t) (key : string)
  : Async string :=
  FmsService.getPreSignedURLToViewObject (fmsService self) key.

End FmsController.

(** ** Every way into the service *)

(** A call of one of the public methods of [FmsService]. *)
Inductive MethodCall : Type :=
| ValidateContentType (contentType : string)
| ValidateFileSize (fileSize : Js.number)
| GetPreSignedURL (key contentType : string) (fileSize : Js.number)
| GetPreSignedURLToViewObject (key : string)
| DeleteObject (key : string).

(** The SDK calls a method call makes. *)
Definition sdk_calls `{Runtime}
    (self : FmsService.t) (c : MethodCall) (history : list Sdk.Call)
  : list Sdk.Call :=
  match c with
  | ValidateContentType _ => []
  | ValidateFileSize _ => []
  | GetPreSignedURL key contentType fileSize =>
      calls (FmsService.getPreSignedURL self key contentType fileSize) history
  | GetPreSignedURLToViewObject key =>
      calls (FmsService.getPreSignedURLToViewObject self key) history
  | DeleteObject key => calls (FmsService.deleteObject self key) history
  end.

(** The outcome of a method call, its value forgotten. *)
Definition forget {A : Type} (o : Outcome A) : Outcome unit :=
  match o with
  | Returned _ => Returned tt
  | Thrown e => Thrown e
  end.

Definition method_outcome `{Runtime}
    (self : FmsService.t) (c : MethodCall) (history : list Sdk.Call)
  : Outcome unit :=
  match c with
  | ValidateContentType contentType =>
      FmsService.validateContentType contentType
  | ValidateFileSize fileSize => FmsService.validateFileSize fileSize
  | GetPreSignedURL key contentType fileSize =>
      forget
        (outcome (FmsService.getPreSignedURL self key contentType fileSize)
           history)
  | GetPreSignedURLToViewObject key =>
      forget (outcome (FmsService.getPreSignedURLToViewObject self key)
                history)
  | DeleteObject key =>
      forget (outcome (FmsService.deleteObject self key) history)
  end.

(** A call that asks the SDK to sign a URL. *)
Definition is_signing (c : Sdk.Call) : bool :=
  match c with
  | Sdk.getSignedUrl _ _ _ => true
  | Sdk.send _ _ => false
  end.

(** [x] is a positive number: [0 < x], which excludes [NaN]. *)
Definition positive_number (x : Js.number) : Prop :=
  Js.lt 0%float x = true.

(** ** The commands the service builds *)

Definition put_command (self : FmsService.t) (key contentType : string)
    (fileSize : Js.number) : Sdk.Command :=
  Sdk.PutObjectCommand
    {| Sdk.PutObject.Bucket := FmsService.bucketName self;
       Sdk.PutObject.Key := key;
       Sdk.PutObject.ContentType := contentType;
       Sdk.PutObject.ContentLength := fileSize |}.

Definition get_command (self : FmsService.t) (key : string) : Sdk.Command :=
  Sdk.GetObjectCommand
    {| Sdk.GetObject.Bucket := FmsService.bucketName self;
       Sdk.GetObject.Key := key |}.

Definition delete_command (self : FmsService.t) (key : string)
  : Sdk.Command :=
  Sdk.DeleteObjectCommand
    {| Sdk.DeleteObject.Bucket := FmsService.bucketName self;
       Sdk.DeleteObject.Key := key |}.

(** The promise returned after a signing call: the rewritten URL, or the
    SDK's rejection. *)
Definition signed `{Runtime} (self : FmsService.t) (command : Sdk.Command)
    (expiresIn : Z) (history : list Sdk.Call) : Outcome string :=
  match getSignedUrl_answer history (FmsService.s3Client self) command
          expiresIn with
  | inl url => Returned (FmsService.toPublicUrl self url)
  | inr msg => Thrown (SdkError msg)
  end.

(** An upload request is valid when its type is on the list and its size is
    positive and not above the ceiling. *)
Definition valid_upload (contentType : string) (fileSize : Js.number)
  : Prop :=
  In contentType ALLOWED_MIME_TYPES /\
  positive_number fileSize /\
  Js.le fileSize MAX_FILE_SIZE_BYTES = true.

(** ** Literal replacement, for comparison with [Js.replace] *)

(** [s] contains no [$], so no replacement pattern. *)
Fixpoint no_dollar (s : string) : bool :=
  match s with
  | EmptyString => true
  | String c s' => negb (Ascii.eqb c "$") && no_dollar s'
  end.

(** [search] occurs in [s] between [preceding] and [following], and nowhere
    further to the left. *)
Definition first_occurrence (s search preceding following : string) : Prop :=
  s = preceding ++ search ++ following /\
  forall preceding' following',
    s = preceding' ++ search ++ following' ->
    String.length preceding <= String.length preceding'.

(** [search] does not occur in [s]. *)
Definition no_occurrence (s search : string) : Prop :=
  forall preceding following, s <> preceding ++ search ++ following.

(** ** A concrete runtime and deployment, for running the methods *)

Module Sample.

Definition decimal (n : Z) : string :=
  NilZero.string_of_uint (N.to_uint (Z.to_N n)).

Fixpoint zeros (n : nat) : string :=
  match n with
  | O => EmptyString
  | S n' => String "0" (zeros n')
  end.

(** The rational a finite double stands for. *)
Definition exact (x : Js.number) : option Q :=
  match Prim2SF x with
  | S754_zero _ => Some 0%Q
  | S754_finite s m e =>
      Some ((if s then -1 else 1) * inject_Z (Z.pos m) * 2 ^ e)%Q
  | S754_infinity _ | S754_nan => None
  end.

(** [x.toFixed(digits)] for the non-finite values and for finite [x] below
    [10^21] in magnitude: round [|x| * 10^digits] to the nearest integer,
    the larger one on a tie, and put a minus sign when [x < 0]. *)
Definition toFixed (x : Js.number) (digits : nat) : string :=
  match exact x with
  | None =>
      if PrimFloat.is_nan x then "NaN"
      else if Js.lt x 0 then "-Infinity" else "Infinity"
  | Some q =>
      let scale := (10 ^ Z.of_nat digits)%Z in
      let n := Qfloor (Qabs q * inject_Z scale + (1 # 2)) in
      let whole := decimal (n / scale) in
      let part := decimal (n mod scale) in
      let fraction :=
        match digits with
        | O => EmptyString
        | _ => "." ++ zeros (digits - String.length part) ++ part
        end in
      (if Js.lt x 0 then "-" else "") ++ whole ++ fraction
  end.

(** [String(x)] for the non-finite values and for integers; the digits of
    other numbers are not needed to run the service. *)
Definition toString (x : Js.number) : string :=
  match exact x with
  | None =>
      if PrimFloat.is_nan x then "NaN"
      else if Js.lt x 0 then "-Infinity" else "Infinity"
  | Some q => (if Js.lt x 0 then "-" else "") ++ decimal (Qfloor (Qabs q))
  end.

Definition key_of (command : Sdk.Command) : string :=
  match command with
  | Sdk.PutObjectCommand i => Sdk.PutObject.Key i
  | Sdk.GetObjectCommand i => Sdk.GetObject.Key i
  | Sdk.DeleteObjectCommand i => Sdk.DeleteObject.Key i
  end.

Definition bucket_of (command : Sdk.Command) : string :=
  match command with
  | Sdk.PutObjectCommand i => Sdk.PutObject.Bucket i
  | Sdk.GetObjectCommand i => Sdk.GetObject.Bucket i
  | Sdk.DeleteObjectCommand i => Sdk.DeleteObject.Bucket i
  end.

(** A path-style URL on the client's endpoint, with the expiry in the query
    string; the signature itself is left out. *)
Definition signed_url (client : Sdk.S3Client) (command : Sdk.Command)
    (expiresIn : Z) : string :=
  Js.or_default (Sdk.endpoint client) "https://s3.amazonaws.com"
    ++ "/" ++ bucket_of command ++ "/" ++ key_of command
    ++ "?X-Amz-Expires=" ++ decimal expiresIn.

(** An SDK whose calls all succeed. *)
Definition runtime : Runtime :=
  {| getSignedUrl_answer := fun _ client command expiresIn =>
       inl (signed_url client command expiresIn);
     send_answer := fun _ _ _ => inl tt;
     Number_toFixed := toFixed;
     Number_toString := toString |}.

(** An SDK that, like the S3 client's request serializer, refuses a command
    whose key is the empty string. *)
Definition empty_key_error : string :=
  "Empty value provided for input HTTP label: Key.".

Definition strict_runtime : Runtime :=
  {| getSignedUrl_answer := fun _ client command expiresIn =>
       if String.eqb (key_of command) "" then inr empty_key_error
       else inl (signed_url client command expiresIn);
     send_answer := fun _ _ command =>
       if String.eqb (key_of command) "" then inr empty_key_error
       else inl tt;
     Number_toFixed := toFixed;
     Number_toString := toString |}.

(** The Docker deployment: the backend reaches LocalStack by its service
    name, the browser by [localhost]. *)
Definition docker_env : gmap string string :=
  <["S3_ENDPOINT" := "http://localstack:4566"]>
    (<["S3_PUBLIC_ENDPOINT" := "http://localhost:4566"]> ∅).

(** The same deployment with a public endpoint that contains [$$]. *)
Definition dollar_env : gmap string string :=
  <["S3_ENDPOINT" := "http://localstack:4566"]>
    (<["S3_PUBLIC_ENDPOINT" := "http://localhost:4566/a$$b"]> ∅).

(** No variable set: real AWS, default bucket. *)
Definition aws_env : gmap string string := ∅.

Definition docker : FmsService.t := FmsService.constructor docker_env.
Definition dollar : FmsService.t := FmsService.constructor dollar_env.
Definition aws : FmsService.t := FmsService.constructor aws_env.

End Sample.

(** ** What an SDK call carries *)

Definition call_client (c : Sdk.Call) : Sdk.S3Client :=
  match c with
  | Sdk.getSignedUrl client _ _ => client
  | Sdk.send client _ => client
  end.

Definition call_command (c : Sdk.Call) : Sdk.Command :=
  match c with
  | Sdk.getSignedUrl _ command _ => command
  | Sdk.send _ command => command
  end.

Definition command_bucket (command : Sdk.Command) : string :=
  match command with
  | Sdk.PutObjectCommand i => Sdk.PutObject.Bucket i
  | Sdk.GetObjectCommand i => Sdk.GetObject.Bucket i
  | Sdk.DeleteObjectCommand i => Sdk.DeleteObject.Bucket i
  end.

Definition command_key (command : Sdk.Command) : string :=
  match command with
  | Sdk.PutObjectCommand i => Sdk.PutObject.Key i
  | Sdk.GetObjectCommand i => Sdk.GetObject.Key i
  | Sdk.DeleteObjectCommand i => Sdk.DeleteObject.Key i
  end.

(** The key a method call is given, when it takes one. *)
Definition method_key (c : MethodCall) : option string :=
  match c with
  | ValidateContentType _ | ValidateFileSize _ => None
  | GetPreSignedURL key _ _ => Some key
  | GetPreSignedURLToViewObject key => Some key
  | DeleteObject key => Some key
  end.

(** ** The order of numbers *)

(** A number that is not [NaN], as a point of a lexicographic order: first
    its class (negative infinity, negative, zero, positive, positive
    infinity), then its exponent and its mantissa, both negated for a
    negative number.  [SFcompare] compares two numbers by these points. *)
Definition SFkey (x : spec_float) : option (Z * Z * Z) :=
  match x with
  | S754_nan => None
  | S754_infinity true => Some (-2, 0, 0)%Z
  | S754_infinity false => Some (2, 0, 0)%Z
  | S754_zero _ => Some (0, 0, 0)%Z
  | S754_finite true m e => Some (-1, - e, - Z.pos m)%Z
  | S754_finite false m e => Some (1, e, Z.pos m)%Z
  end.

Definition key_le (a b : Z * Z * Z) : Prop :=
  let '(c1, e1, m1) := a in
  let '(c2, e2, m2) := b in
  (c1 < c2 \/ (c1 = c2 /\ (e1 < e2 \/ (e1 = e2 /\ m1 <= m2))))%Z.

(** * Properties *)

(** ** Numbers *)

Lemma SFcompare_finite_refl (s : bool) (m : positive) (e : Z) :
  SFcompare (S754_finite s m e) (S754_finite s m e) = Some Eq.
Proof.
  simpl. rewrite Z.compare_refl, Pos.compare_cont_refl.
  now destruct s.
Qed.

Lemma SFcompare_antisym (a b : spec_float) :
  SFcompare a b = option_map CompOpp (SFcompare b a).
Proof.
  destruct a as [sa | sa | | sa ma ea], b as [sb | sb | | sb mb eb];
    try (destruct sa); try (destruct sb); try reflexivity; simpl;
    rewrite (Z.compare_antisym ea eb);
    destruct (ea ?= eb)%Z; simpl; try reflexivity;
    rewrite (Pos.compare_cont_antisym mb ma Eq); simpl;
    now rewrite ?CompOpp_involutive.
Qed.

(** [!x || x <= 0] is the negation of [0 < x]. *)
Lemma not_positive_iff (x : Js.number) :
  Js.falsy x || Js.le x 0 = true <-> ~ positive_number x.
Proof.
  unfold positive_number, Js.falsy, Js.le, Js.lt, is_zero, is_nan.
  rewrite !FloatAxioms.eqb_spec, FloatAxioms.leb_spec, FloatAxioms.ltb_spec.
  replace (Prim2SF PrimFloat.zero) with (S754_zero false) by reflexivity.
  replace (Prim2SF 0) with (S754_zero false) by reflexivity.
  unfold SFeqb, SFleb, SFltb.
  destruct (Prim2SF x) as [s | s | | s m e].
  - simpl. split; [intros _ H; discriminate H | reflexivity].
  - destruct s; simpl.
    + split; [intros _ H; discriminate H | reflexivity].
    + split; [discriminate | intro H; exfalso; apply H; reflexivity].
  - simpl. split; [intros _ H; discriminate H | reflexivity].
  - rewrite SFcompare_finite_refl. destruct s; simpl.
    + split; [intros _ H; discriminate H | reflexivity].
    + split; [discriminate | intro H; exfalso; apply H; reflexivity].
Qed.

Lemma SFcompare_defined (a b : spec_float) :
  a <> S754_nan -> b <> S754_nan -> exists c, SFcompare a b = Some c.
Proof.
  destruct a, b; intros Ha Hb; try congruence; simpl; eexists; reflexivity.
Qed.

(** For a positive [x] and a [y] that is not [NaN], [x > y] is false exactly
    when [x <= y]. *)
Lemma gt_false_iff_le (x y : Js.number) :
  positive_number x -> PrimFloat.is_nan y = false ->
  (Js.gt x y = false <-> Js.le x y = true).
Proof.
  unfold positive_number, Js.gt, Js.le, Js.lt, is_nan.
  rewrite !FloatAxioms.ltb_spec, FloatAxioms.leb_spec, FloatAxioms.eqb_spec.
  unfold SFltb, SFleb, SFeqb.
  intros Hpos Hy.
  assert (Hx' : Prim2SF x <> S754_nan).
  { intro Hnan. rewrite Hnan in Hpos.
    destruct (Prim2SF 0); discriminate Hpos. }
  assert (Hy' : Prim2SF y <> S754_nan).
  { intro Hnan. rewrite Hnan in Hy. discriminate Hy. }
  rewrite (SFcompare_antisym (Prim2SF x) (Prim2SF y)).
  destruct (SFcompare_defined _ _ Hy' Hx') as [c ->].
  destruct c; simpl; split; congruence.
Qed.

Lemma MAX_FILE_SIZE_BYTES_value : MAX_FILE_SIZE_BYTES = 5242880%float.
Proof. reflexivity. Qed.

(** ** The two validators *)

Lemma includes_In (xs : list string) (x : string) :
  Js.includes xs x = true <-> In x xs.
Proof.
  unfold Js.includes. rewrite existsb_exists. split.
  - intros [y [Hy Heq]]. apply String.eqb_eq in Heq. now subst.
  - intro Hin. exists x. split; [assumption | apply String.eqb_refl].
Qed.

Lemma validateContentType_cases (contentType : string) :
  (In contentType ALLOWED_MIME_TYPES /\
   FmsService.validateContentType contentType = Returned tt) \/
  (~ In contentType ALLOWED_MIME_TYPES /\
   exists message,
     FmsService.validateContentType contentType
     = Thrown (BadRequestException message)).
Proof.
  unfold FmsService.validateContentType.
  destruct (Js.includes ALLOWED_MIME_TYPES contentType) eqn:Hinc;
    cbv [negb].
  - left. split; [now apply includes_In | reflexivity].
  - right. split; [| eexists; reflexivity].
    intro Hin. apply includes_In in Hin. congruence.
Qed.

Lemma validateFileSize_cases `{Runtime} (fileSize : Js.number) :
  (positive_number fileSize /\ Js.le fileSize MAX_FILE_SIZE_BYTES = true /\
   FmsService.validateFileSize fileSize = Returned tt) \/
  (~ positive_number fileSize /\
   FmsService.validateFileSize fileSize
   = Thrown (BadRequestException "File size must be a positive number")) \/
  (positive_number fileSize /\ Js.gt fileSize MAX_FILE_SIZE_BYTES = true /\
   Js.le fileSize MAX_FILE_SIZE_BYTES = false /\
   exists message,
     FmsService.validateFileSize fileSize
     = Thrown (BadRequestException message)).
Proof.
  unfold FmsService.validateFileSize.
  destruct (Js.falsy fileSize || Js.le fileSize 0%float) eqn:Hnp.
  - right; left. split; [now apply not_positive_iff | reflexivity].
  - assert (Hpos : positive_number fileSize).
    { destruct (Js.lt 0%float fileSize) eqn:Hlt; [exact Hlt |].
      assert (Hn : ~ positive_number fileSize)
        by (unfold positive_number; congruence).
      apply not_positive_iff in Hn. congruence. }
    assert (Hmax : PrimFloat.is_nan MAX_FILE_SIZE_BYTES = false)
      by reflexivity.
    destruct (Js.gt fileSize MAX_FILE_SIZE_BYTES) eqn:Hgt.
    + right; right. repeat split; try assumption; [| eexists; reflexivity].
      destruct (Js.le fileSize MAX_FILE_SIZE_BYTES) eqn:Hle; [| reflexivity].
      apply (gt_false_iff_le _ _ Hpos Hmax) in Hle. congruence.
    + left. repeat split; try assumption.
      now apply (gt_false_iff_le _ _ Hpos Hmax).
Qed.

Example validateContentType_gif :
  FmsService.validateContentType "image/gif"
  = Thrown (BadRequestException
      "Invalid file type: image/gif. Allowed types: image/jpeg, image/jpg, image/png, image/webp").
Proof. reflexivity. Qed.

Example validateContentType_case_sensitive :
  FmsService.validateContentType "image/PNG"
  = Thrown (BadRequestException
      "Invalid file type: image/PNG. Allowed types: image/jpeg, image/jpg, image/png, image/webp").
Proof. reflexivity. Qed.

Example validateFileSize_at_ceiling :
  FmsService.validateFileSize (H := Sample.runtime) 5242880%float
  = Returned tt.
Proof. reflexivity. Qed.

Example validateFileSize_above_ceiling :
  FmsService.validateFileSize (H := Sample.runtime) 6000000%float
  = Thrown (BadRequestException
      "File size (5.72MB) exceeds maximum allowed size (5MB)").
Proof. reflexivity. Qed.

Example validateFileSize_infinity :
  FmsService.validateFileSize (H := Sample.runtime) infinity
  = Thrown (BadRequestException
      "File size (InfinityMB) exceeds maximum allowed size (5MB)").
Proof. reflexivity. Qed.

Example validateFileSize_negative_zero :
  FmsService.validateFileSize (H := Sample.runtime) (-0)%float
  = Thrown (BadRequestException "File size must be a positive number").
Proof. reflexivity. Qed.

Example validateFileSize_nan :
  FmsService.validateFileSize (H := Sample.runtime) nan
  = Thrown (BadRequestException "File size must be a positive number").
Proof. reflexivity. Qed.

(** ** The three asynchronous methods, case by case *)

Lemma getPreSignedURL_thrown_contentType `{Runtime}
    self key contentType fileSize history e :
  FmsService.validateContentType contentType = Thrown e ->
  FmsService.getPreSignedURL self key contentType fileSize history
  = (Thrown e, []).
Proof.
  intro Hct. unfold FmsService.getPreSignedURL, bind, sync.
  now rewrite Hct.
Qed.

Lemma getPreSignedURL_thrown_fileSize `{Runtime}
    self key contentType fileSize history e :
  FmsService.validateContentType contentType = Returned tt ->
  FmsService.validateFileSize fileSize = Thrown e ->
  FmsService.getPreSignedURL self key contentType fileSize history
  = (Thrown e, []).
Proof.
  intros Hct Hfs. unfold FmsService.getPreSignedURL, bind, sync.
  now rewrite Hct, Hfs.
Qed.

Lemma getPreSignedURL_signs `{Runtime}
    self key contentType fileSize history :
  FmsService.validateContentType contentType = Returned tt ->
  FmsService.validateFileSize fileSize = Returned tt ->
  FmsService.getPreSignedURL self key contentType fileSize history
  = (signed self (put_command self key contentType fileSize) 1800 history,
     [Sdk.getSignedUrl (FmsService.s3Client self)
        (put_command self key contentType fileSize) 1800]).
Proof.
  intros Hct Hfs.
  unfold FmsService.getPreSignedURL, bind, sync, await_getSignedUrl,
    resolve, signed, put_command.
  rewrite Hct, Hfs. cbn [app]. rewrite !app_nil_r.
  destruct (getSignedUrl_answer _ _ _ _); reflexivity.
Qed.

Lemma getPreSignedURLToViewObject_signs `{Runtime} self key history :
  FmsService.getPreSignedURLToViewObject self key history
  = (signed self (get_command self key) 300 history,
     [Sdk.getSignedUrl (FmsService.s3Client self)
        (get_command self key) 300]).
Proof.
  unfold FmsService.getPreSignedURLToViewObject, bind, await_getSignedUrl,
    resolve, signed, get_command.
  destruct (getSignedUrl_answer _ _ _ _); reflexivity.
Qed.

Lemma deleteObject_sends `{Runtime} self key history :
  FmsService.deleteObject self key history
  = (of_answer
       (send_answer history (FmsService.s3Client self)
          (delete_command self key)),
     [Sdk.send (FmsService.s3Client self) (delete_command self key)]).
Proof. reflexivity. Qed.

Lemma valid_upload_validates `{Runtime} contentType fileSize :
  valid_upload contentType fileSize ->
  FmsService.validateContentType contentType = Returned tt /\
  FmsService.validateFileSize fileSize = Returned tt.
Proof.
  intros (Hct & Hpos & Hle). split.
  - destruct (validateContentType_cases contentType) as [[_ Hr] | [Hn _]];
      [exact Hr | contradiction].
  - destruct (validateFileSize_cases fileSize)
      as [(_ & _ & Hr) | [(Hn & _) | (_ & _ & Hf & _)]];
      [exact Hr | contradiction | congruence].
Qed.

Lemma invalid_upload_throws `{Runtime} self key contentType fileSize history :
  ~ valid_upload contentType fileSize ->
  exists message,
    FmsService.getPreSignedURL self key contentType fileSize history
    = (Thrown (BadRequestException message), []).
Proof.
  intro Hinv.
  destruct (validateContentType_cases contentType)
    as [[Hin Hct] | [_ [m Hct]]].
  - destruct (validateFileSize_cases fileSize)
      as [(Hpos & Hle & _) | [(_ & Hfs) | (_ & _ & _ & m & Hfs)]].
    + exfalso. apply Hinv. now repeat split.
    + eexists. apply getPreSignedURL_thrown_fileSize; eassumption.
    + exists m. apply getPreSignedURL_thrown_fileSize; assumption.
  - exists m. apply getPreSignedURL_thrown_contentType; assumption.
Qed.

(** The SDK calls of [getPreSignedURL] are either none or the one signing
    call for the [PutObjectCommand], made on a valid request. *)
Lemma getPreSignedURL_calls `{Runtime}
    self key contentType fileSize history :
  (~ valid_upload contentType fileSize /\
   calls (FmsService.getPreSignedURL self key contentType fileSize) history
   = []) \/
  (valid_upload contentType fileSize /\
   calls (FmsService.getPreSignedURL self key contentType fileSize) history
   = [Sdk.getSignedUrl (FmsService.s3Client self)
        (put_command self key contentType fileSize) 1800]).
Proof.
  unfold calls.
  destruct (validateContentType_cases contentType)
    as [[Hin Hct] | [Hn [m Hct]]].
  - destruct (validateFileSize_cases fileSize)
      as [(Hpos & Hle & Hfs) | [(Hn & Hfs) | (_ & _ & Hf & m & Hfs)]].
    + right. split; [now repeat split |].
      now rewrite getPreSignedURL_signs.
    + left. split; [intros (_ & Hp & _); contradiction |].
      now rewrite (getPreSignedURL_thrown_fileSize _ _ _ _ _ _ Hct Hfs).
    + left. split; [intros (_ & _ & Hle); congruence |].
      now rewrite (getPreSignedURL_thrown_fileSize _ _ _ _ _ _ Hct Hfs).
  - left. split; [intros (Hin & _); contradiction |].
    now rewrite (getPreSignedURL_thrown_contentType _ _ _ _ _ _ Hct).
Qed.

(** ** Claims about the validators *)

(** C1: [validateContentType] throws [BadRequestException] exactly when the
    content type is not one of the four strings of [ALLOWED_MIME_TYPES]
    ('image/jpeg', 'image/jpg', 'image/png', 'image/webp'), and returns
    without error for each of the four. *)
Theorem validateContentType_allow_list :
  ALLOWED_MIME_TYPES = ["image/jpeg"; "image/jpg"; "image/png"; "image/webp"]
  /\ forall contentType : string,
       ((exists message,
           FmsService.validateContentType contentType
           = Thrown (BadRequestException message))
        <-> ~ In contentType
                ["image/jpeg"; "image/jpg"; "image/png"; "image/webp"])
       /\ (In contentType
             ["image/jpeg"; "image/jpg"; "image/png"; "image/webp"]
           <-> FmsService.validateContentType contentType = Returned tt).
Proof.
  split; [reflexivity |].
  intro contentType.
  change ["image/jpeg"; "image/jpg"; "image/png"; "image/webp"]
    with ALLOWED_MIME_TYPES.
  destruct (validateContentType_cases contentType)
    as [[Hin Hok] | [Hout [message Hthrown]]].
  - split; split.
    + intros [message Hthrown]. congruence.
    + contradiction.
    + intros _. exact Hok.
    + intros _. exact Hin.
  - split; split.
    + intros _. exact Hout.
    + intros _. now exists message.
    + contradiction.
    + congruence.
Qed.

(** C2: for every positive file size, [validateFileSize] throws
    [BadRequestException] exactly when the size is strictly greater than
    [MAX_FILE_SIZE_BYTES = 5 * 1024 * 1024 = 5242880]; the size 5242880
    itself is accepted. *)
Theorem validateFileSize_ceiling `{Runtime} :
  MAX_FILE_SIZE_BYTES = (5 * 1024 * 1024)%float
  /\ MAX_FILE_SIZE_BYTES = 5242880%float
  /\ FmsService.validateFileSize 5242880%float = Returned tt
  /\ forall fileSize : Js.number,
       positive_number fileSize ->
       ((exists message,
           FmsService.validateFileSize fileSize
           = Thrown (BadRequestException message))
        <-> Js.gt fileSize 5242880%float = true).
Proof.
  repeat split; try reflexivity.
  - intros [message Hthrown].
    change 5242880%float with MAX_FILE_SIZE_BYTES.
    destruct (validateFileSize_cases fileSize)
      as [(_ & _ & Hok) | [(Hn & _) | (_ & Hgt & _)]];
      [congruence | contradiction | exact Hgt].
  - change 5242880%float with MAX_FILE_SIZE_BYTES. intro Hgt.
    destruct (validateFileSize_cases fileSize)
      as [(Hpos & Hle & _) | [(Hn & _) | (_ & _ & _ & Hthrown)]];
      [| contradiction | exact Hthrown].
    assert (Hmax : PrimFloat.is_nan MAX_FILE_SIZE_BYTES = false)
      by reflexivity.
    apply (gt_false_iff_le _ _ Hpos Hmax) in Hle. congruence.
Qed.

(** C2, at the size 6000000, which is positive and above the ceiling. *)
Lemma validateFileSize_ceiling_witness :
  positive_number 6000000%float
  /\ ((exists message,
         FmsService.validateFileSize (H := Sample.runtime) 6000000%float
         = Thrown (BadRequestException message))
      <-> Js.gt 6000000%float 5242880%float = true).
Proof.
  split; [reflexivity |].
  apply (proj2 (proj2 (proj2 (validateFileSize_ceiling (H := Sample.runtime))))
           6000000%float).
  reflexivity.
Defined.

(** C8: [validateFileSize] throws [BadRequestException] with the message
    'File size must be a positive number' for every size that is zero,
    negative or [NaN], and [getPreSignedURL] never asks for a signature of a
    [PutObjectCommand] whose [ContentLength] is not positive. *)
Theorem validateFileSize_rejects_non_positive `{Runtime} :
  (forall fileSize : Js.number,
     PrimFloat.is_nan fileSize = true \/ Js.le fileSize 0%float = true ->
     FmsService.validateFileSize fileSize
     = Thrown (BadRequestException "File size must be a positive number"))
  /\ (forall self key contentType fileSize history client input expiresIn,
        In (Sdk.getSignedUrl client (Sdk.PutObjectCommand input) expiresIn)
           (calls
              (FmsService.getPreSignedURL self key contentType fileSize)
              history) ->
        positive_number (Sdk.PutObject.ContentLength input)).
Proof.
  split.
  - intros fileSize Hcase. unfold FmsService.validateFileSize.
    replace (Js.falsy fileSize || Js.le fileSize 0%float) with true;
      [reflexivity |].
    unfold Js.falsy.
    destruct Hcase as [-> | ->]; now rewrite !orb_true_r.
  - intros self key contentType fileSize history client input expiresIn Hin.
    destruct (getPreSignedURL_calls self key contentType fileSize history)
      as [[_ Hnone] | [(_ & Hpos & _) Hone]].
    + rewrite Hnone in Hin. destruct Hin.
    + rewrite Hone in Hin. destruct Hin as [Heq | []].
      unfold put_command in Heq. injection Heq as _ <- _. exact Hpos.
Qed.

(** C10: [getUploadConstraints] returns the enforced allow-list and the
    enforced ceiling, so a request whose content type is in the returned
    list and whose size is positive and at most the returned ceiling passes
    both validations. *)
Theorem advertised_constraints_are_enforced `{Runtime} :
  forall controller : FmsController.t,
    let advertised := FmsController.getUploadConstraints controller in
    FmsController.allowedMimeTypes advertised = ALLOWED_MIME_TYPES
    /\ FmsController.maxFileSizeBytes advertised = MAX_FILE_SIZE_BYTES
    /\ forall (contentType : string) (fileSize : Js.number),
         In contentType (FmsController.allowedMimeTypes advertised) ->
         positive_number fileSize ->
         Js.le fileSize (FmsController.maxFileSizeBytes advertised) = true ->
         FmsService.validateContentType contentType = Returned tt
         /\ FmsService.validateFileSize fileSize = Returned tt.
Proof.
  intros controller advertised. repeat split; try reflexivity.
  - apply (valid_upload_validates contentType fileSize). now repeat split.
  - apply (valid_upload_validates contentType fileSize). now repeat split.
Qed.

(** C8, at the size -1 and on the upload of one byte. *)
Lemma validateFileSize_rejects_non_positive_witness :
  (Js.le (-1)%float 0%float = true
   /\ FmsService.validateFileSize (H := Sample.runtime) (-1)%float
      = Thrown (BadRequestException "File size must be a positive number"))
  /\ positive_number 1%float.
Proof.
  pose proof (validateFileSize_rejects_non_positive (H := Sample.runtime))
    as [Hthrows Hsigned].
  split; [split; [reflexivity | apply Hthrows; right; reflexivity] |].
  apply (Hsigned Sample.docker "k" "image/png" 1%float []
           (FmsService.s3Client Sample.docker)
           {| Sdk.PutObject.Bucket := "demo-bucket";
              Sdk.PutObject.Key := "k";
              Sdk.PutObject.ContentType := "image/png";
              Sdk.PutObject.ContentLength := 1%float |}
           1800%Z).
  left. reflexivity.
Defined.

(** C10, for a PNG of exactly the advertised maximum size. *)
Lemma advertised_constraints_are_enforced_witness :
  FmsService.validateContentType "image/png" = Returned tt
  /\ FmsService.validateFileSize (H := Sample.runtime) 5242880%float
     = Returned tt.
Proof.
  apply (proj2 (proj2
           (advertised_constraints_are_enforced (H := Sample.runtime)
              {| FmsController.fmsService := Sample.docker |}))
           "image/png" 5242880%float).
  - right; right; left; reflexivity.
  - reflexivity.
  - reflexivity.
Defined.

(** ** Claims about the SDK calls *)

(** C3: on a valid request [getPreSignedURL] asks for a signed URL with an
    expiry of 1800 seconds, [getPreSignedURLToViewObject] asks for one with
    an expiry of 300 seconds for every key, and no signing call of any
    method of the service carries another expiry. *)
Theorem signing_expiry `{Runtime} :
  forall (self : FmsService.t) (history : list Sdk.Call),
    (forall key contentType fileSize,
       valid_upload contentType fileSize ->
       exists command,
         calls (FmsService.getPreSignedURL self key contentType fileSize)
           history
         = [Sdk.getSignedUrl (FmsService.s3Client self) command 1800])
    /\ (forall key,
          exists command,
            calls (FmsService.getPreSignedURLToViewObject self key) history
            = [Sdk.getSignedUrl (FmsService.s3Client self) command 300])
    /\ (forall (method : MethodCall) client command expiresIn,
          In (Sdk.getSignedUrl client command expiresIn)
             (sdk_calls self method history) ->
          match command with
          | Sdk.PutObjectCommand _ => expiresIn = 1800%Z
          | Sdk.GetObjectCommand _ => expiresIn = 300%Z
          | Sdk.DeleteObjectCommand _ => False
          end).
Proof.
  intros self history. split; [| split].
  - intros key contentType fileSize Hvalid.
    destruct (getPreSignedURL_calls self key contentType fileSize history)
      as [[Hinv _] | [_ Hone]]; [contradiction |].
    eexists. exact Hone.
  - intro key. eexists. unfold calls.
    now rewrite getPreSignedURLToViewObject_signs.
  - intros method client command expiresIn Hin.
    destruct method as [ct | fs | key ct fs | key | key]; simpl in Hin.
    + destruct Hin.
    + destruct Hin.
    + destruct (getPreSignedURL_calls self key ct fs history)
        as [[_ Hnone] | [_ Hone]]; rewrite ?Hnone, ?Hone in Hin.
      * destruct Hin.
      * destruct Hin as [Heq | []]. injection Heq as _ <- <-. reflexivity.
    + unfold calls in Hin. rewrite getPreSignedURLToViewObject_signs in Hin.
      destruct Hin as [Heq | []]. injection Heq as _ <- <-. reflexivity.
    + destruct Hin as [Heq | []]. discriminate Heq.
Qed.

(** C3, for a 100 KiB JPEG uploaded through the Docker deployment. *)
Lemma signing_expiry_witness :
  valid_upload "image/jpeg" 102400%float
  /\ exists command,
       calls
         (FmsService.getPreSignedURL (H := Sample.runtime) Sample.docker
            "profile/john123.jpg" "image/jpeg" 102400%float) []
       = [Sdk.getSignedUrl (FmsService.s3Client Sample.docker) command 1800].
Proof.
  assert (Hvalid : valid_upload "image/jpeg" 102400%float).
  { split; [left; reflexivity | split; reflexivity]. }
  split; [exact Hvalid |].
  exact (proj1 (signing_expiry (H := Sample.runtime) Sample.docker [])
           "profile/john123.jpg" "image/jpeg" 102400%float Hvalid).
Defined.

(** C4: [getPreSignedURL] validates before it reaches the SDK.  If the
    content type is not on the allow-list, or the size is not a positive
    number at most the ceiling, the promise is rejected with a
    [BadRequestException] and no SDK call has been made; the service has
    only read-only fields, so nothing else can have changed. *)
Theorem getPreSignedURL_validates_first `{Runtime} :
  forall (self : FmsService.t) (key contentType : string)
         (fileSize : Js.number) (history : list Sdk.Call),
    ~ In contentType ALLOWED_MIME_TYPES
    \/ ~ (positive_number fileSize
          /\ Js.le fileSize MAX_FILE_SIZE_BYTES = true) ->
    exists message,
      outcome (FmsService.getPreSignedURL self key contentType fileSize)
        history
      = Thrown (BadRequestException message)
      /\ calls (FmsService.getPreSignedURL self key contentType fileSize)
           history
         = [].
Proof.
  intros self key contentType fileSize history Hbad.
  destruct (invalid_upload_throws self key contentType fileSize history)
    as [message Hthrown].
  - intros (Hin & Hpos & Hle). destruct Hbad as [Hn | Hn]; apply Hn;
      [exact Hin | now split].
  - exists message. unfold outcome, calls. rewrite Hthrown. now split.
Qed.

(** C4, for a GIF and for a file of 6000000 bytes. *)
Lemma getPreSignedURL_validates_first_witness :
  ~ In "image/gif" ALLOWED_MIME_TYPES
  /\ exists message,
       outcome
         (FmsService.getPreSignedURL (H := Sample.runtime) Sample.docker
            "profile/a.gif" "image/gif" 1024%float) []
       = Thrown (BadRequestException message)
       /\ calls
            (FmsService.getPreSignedURL (H := Sample.runtime) Sample.docker
               "profile/a.gif" "image/gif" 1024%float) []
          = [].
Proof.
  assert (Hout : ~ In "image/gif" ALLOWED_MIME_TYPES).
  { intro Hin. apply includes_In in Hin. discriminate Hin. }
  split; [exact Hout |].
  exact (getPreSignedURL_validates_first (H := Sample.runtime) Sample.docker
           "profile/a.gif" "image/gif" 1024%float [] (or_introl Hout)).
Defined.

(** C6: on a valid request [getPreSignedURL] makes exactly one SDK call, the
    signing of a [PutObjectCommand] whose [Bucket] is the configured bucket,
    whose [Key] and [ContentType] are the ones given and whose
    [ContentLength] is the validated size; [getPreSignedURLToViewObject]
    makes exactly one, the signing of a [GetObjectCommand] for the
    configured bucket and the given key; and every signing call of the
    service is one of these two. *)
Theorem signing_commands `{Runtime} :
  forall (self : FmsService.t) (history : list Sdk.Call),
    (forall key contentType fileSize,
       valid_upload contentType fileSize ->
       calls (FmsService.getPreSignedURL self key contentType fileSize)
         history
       = [Sdk.getSignedUrl (FmsService.s3Client self)
            (Sdk.PutObjectCommand
               {| Sdk.PutObject.Bucket := FmsService.bucketName self;
                  Sdk.PutObject.Key := key;
                  Sdk.PutObject.ContentType := contentType;
                  Sdk.PutObject.ContentLength := fileSize |})
            1800])
    /\ (forall key,
          calls (FmsService.getPreSignedURLToViewObject self key) history
          = [Sdk.getSignedUrl (FmsService.s3Client self)
               (Sdk.GetObjectCommand
                  {| Sdk.GetObject.Bucket := FmsService.bucketName self;
                     Sdk.GetObject.Key := key |})
               300])
    /\ (forall (method : MethodCall) (call : Sdk.Call),
          In call (sdk_calls self method history) ->
          is_signing call = true ->
          (exists key contentType fileSize,
              method = GetPreSignedURL key contentType fileSize
              /\ valid_upload contentType fileSize
              /\ call = Sdk.getSignedUrl (FmsService.s3Client self)
                          (put_command self key contentType fileSize) 1800)
          \/ (exists key,
                 method = GetPreSignedURLToViewObject key
                 /\ call = Sdk.getSignedUrl (FmsService.s3Client self)
                             (get_command self key) 300)).
Proof.
  intros self history. split; [| split].
  - intros key contentType fileSize Hvalid.
    destruct (getPreSignedURL_calls self key contentType fileSize history)
      as [[Hinv _] | [_ Hone]]; [contradiction | exact Hone].
  - intro key. unfold calls.
    now rewrite getPreSignedURLToViewObject_signs.
  - intros method call Hin Hsign.
    destruct method as [ct | fs | key ct fs | key | key]; simpl in Hin.
    + destruct Hin.
    + destruct Hin.
    + destruct (getPreSignedURL_calls self key ct fs history)
        as [[_ Hnone] | [Hvalid Hone]]; rewrite ?Hnone, ?Hone in Hin.
      * destruct Hin.
      * destruct Hin as [<- | []]. left. exists key, ct, fs.
        split; [reflexivity | split; [exact Hvalid | reflexivity]].
    + unfold calls in Hin. rewrite getPreSignedURLToViewObject_signs in Hin.
      destruct Hin as [<- | []]. right. exists key. now split.
    + destruct Hin as [<- | []]. discriminate Hsign.
Qed.

(** C6, for a 100 KiB JPEG uploaded through the Docker deployment. *)
Lemma signing_commands_witness :
  valid_upload "image/jpeg" 102400%float
  /\ calls
       (FmsService.getPreSignedURL (H := Sample.runtime) Sample.docker
          "profile/john123.jpg" "image/jpeg" 102400%float) []
     = [Sdk.getSignedUrl (FmsService.s3Client Sample.docker)
          (Sdk.PutObjectCommand
             {| Sdk.PutObject.Bucket := "demo-bucket";
                Sdk.PutObject.Key := "profile/john123.jpg";
                Sdk.PutObject.ContentType := "image/jpeg";
                Sdk.PutObject.ContentLength := 102400%float |})
          1800].
Proof.
  assert (Hvalid : valid_upload "image/jpeg" 102400%float).
  { split; [left; reflexivity | split; reflexivity]. }
  split; [exact Hvalid |].
  exact (proj1 (signing_commands (H := Sample.runtime) Sample.docker [])
           "profile/john123.jpg" "image/jpeg" 102400%float Hvalid).
Defined.

(** C9: the view path validates nothing.  For every key, the empty string
    included, [getPreSignedURLToViewObject] makes the signing call for a
    [GetObjectCommand] with that key and is never rejected with a
    [BadRequestException], through the controller as well; a method call
    that ends in a [BadRequestException] is a validator or the upload
    path. *)
Theorem view_path_not_validated `{Runtime} :
  forall (self : FmsService.t) (history : list Sdk.Call),
    (forall key,
       calls (FmsService.getPreSignedURLToViewObject self key) history
       = [Sdk.getSignedUrl (FmsService.s3Client self)
            (Sdk.GetObjectCommand
               {| Sdk.GetObject.Bucket := FmsService.bucketName self;
                  Sdk.GetObject.Key := key |})
            300]
       /\ forall message,
            outcome (FmsService.getPreSignedURLToViewObject self key) history
            <> Thrown (BadRequestException message))
    /\ calls (FmsService.getPreSignedURLToViewObject self "") history
       = [Sdk.getSignedUrl (FmsService.s3Client self)
            (Sdk.GetObjectCommand
               {| Sdk.GetObject.Bucket := FmsService.bucketName self;
                  Sdk.GetObject.Key := "" |})
            300]
    /\ (forall key,
          FmsController.getPreSignedURLToViewObject
            {| FmsController.fmsService := self |} key history
          = FmsService.getPreSignedURLToViewObject self key history)
    /\ (forall (method : MethodCall) message,
          method_outcome self method history
          = Thrown (BadRequestException message) ->
          match method with
          | ValidateContentType _ | ValidateFileSize _
          | GetPreSignedURL _ _ _ => True
          | GetPreSignedURLToViewObject _ | DeleteObject _ => False
          end)
    /\ (exists message,
          outcome
            (FmsService.getPreSignedURL self "" "" 1%float) history
          = Thrown (BadRequestException message)).
Proof.
  intros self history.
  assert (Hview : forall key message,
            outcome (FmsService.getPreSignedURLToViewObject self key) history
            <> Thrown (BadRequestException message)).
  { intros key message. unfold outcome.
    rewrite getPreSignedURLToViewObject_signs. unfold signed. simpl.
    destruct (getSignedUrl_answer _ _ _ _); discriminate. }
  assert (Hcalls : forall key,
            calls (FmsService.getPreSignedURLToViewObject self key) history
            = [Sdk.getSignedUrl (FmsService.s3Client self)
                 (get_command self key) 300]).
  { intro key. unfold calls.
    now rewrite getPreSignedURLToViewObject_signs. }
  split; [| split; [| split; [| split]]].
  - intro key. split; [apply Hcalls | apply Hview].
  - apply Hcalls.
  - reflexivity.
  - intros method message Hthrown.
    destruct method as [ct | fs | key ct fs | key | key]; try exact I;
      simpl in Hthrown.
    + apply (Hview key message).
      destruct (outcome _ _); simpl in Hthrown; [discriminate | congruence].
    + unfold outcome in Hthrown. simpl in Hthrown.
      destruct (send_answer _ _ _); discriminate.
  - destruct (invalid_upload_throws self "" "" 1%float history)
      as [message Hthrown].
    + intros (Hin & _). apply includes_In in Hin. discriminate Hin.
    + exists message. unfold outcome. now rewrite Hthrown.
Qed.

(** ** deleteObject *)

(** C7 as stated fails: [deleteObject] awaits [send] without catching, so a
    key for which the SDK rejects the command makes [deleteObject] reject
    too.  Here the SDK refuses the empty key. *)
Lemma deleteObject_rejects_with_send :
  FmsService.deleteObject (H := Sample.strict_runtime) Sample.aws "" []
  = (Thrown (SdkError "Empty value provided for input HTTP label: Key."),
     [Sdk.send (FmsService.s3Client Sample.aws)
        (Sdk.DeleteObjectCommand
           {| Sdk.DeleteObject.Bucket := "demo-bucket";
              Sdk.DeleteObject.Key := "" |})])
  /\ ~ (forall (R : Runtime) (self : FmsService.t) (key : string)
               (history : list Sdk.Call),
          outcome (FmsService.deleteObject (H := R) self key) history
          = Returned tt).
Proof.
  split; [reflexivity |].
  intro Hall.
  specialize (Hall Sample.strict_runtime Sample.aws "" []).
  discriminate Hall.
Qed.

(** C7, amended: [deleteObject] sends exactly one [DeleteObjectCommand]
    addressed to the configured bucket with the given key, validates
    nothing (it is never rejected with a [BadRequestException]), and
    resolves with no value whenever the SDK's [send] resolves; when [send]
    rejects, [deleteObject] rejects with the same error. *)
Theorem deleteObject_sends_one_command `{Runtime} :
  forall (self : FmsService.t) (key : string) (history : list Sdk.Call),
    let command :=
      Sdk.DeleteObjectCommand
        {| Sdk.DeleteObject.Bucket := FmsService.bucketName self;
           Sdk.DeleteObject.Key := key |} in
    calls (FmsService.deleteObject self key) history
    = [Sdk.send (FmsService.s3Client self) command]
    /\ (forall message,
          outcome (FmsService.deleteObject self key) history
          <> Thrown (BadRequestException message))
    /\ (forall output,
          send_answer history (FmsService.s3Client self) command
          = inl output ->
          outcome (FmsService.deleteObject self key) history = Returned tt)
    /\ (forall message,
          send_answer history (FmsService.s3Client self) command
          = inr message ->
          outcome (FmsService.deleteObject self key) history
          = Thrown (SdkError message)).
Proof.
  intros self key history command. subst command.
  unfold outcome, calls, FmsService.deleteObject, await_send. cbn [fst snd].
  split; [reflexivity | split; [| split]].
  - intro message. destruct (send_answer _ _ _); discriminate.
  - intros [] Hanswer. now rewrite Hanswer.
  - intros message Hanswer. now rewrite Hanswer.
Qed.

(** C7 amended, for a key the SDK accepts. *)
Lemma deleteObject_sends_one_command_witness :
  send_answer (Runtime := Sample.strict_runtime) []
    (FmsService.s3Client Sample.docker)
    (Sdk.DeleteObjectCommand
       {| Sdk.DeleteObject.Bucket := "demo-bucket";
          Sdk.DeleteObject.Key := "profile/john123.jpg" |})
  = inl tt
  /\ outcome
       (FmsService.deleteObject (H := Sample.strict_runtime) Sample.docker
          "profile/john123.jpg") []
     = Returned tt.
Proof.
  split; [reflexivity |].
  exact (proj1 (proj2 (proj2
           (deleteObject_sends_one_command (H := Sample.strict_runtime)
              Sample.docker "profile/john123.jpg" [])))
           tt eq_refl).
Defined.

(** ** URL rewriting *)

Lemma length_append (s t : string) :
  String.length (s ++ t) = String.length s + String.length t.
Proof. induction s as [| c s IH]; simpl; [reflexivity | now rewrite IH]. Qed.

Lemma append_inj_length (p p' r r' : string) :
  String.length p = String.length p' ->
  p ++ r = p' ++ r' -> p = p' /\ r = r'.
Proof.
  revert p'. induction p as [| c p IH]; intros [| c' p'] Hlen Heq;
    simpl in *; try discriminate.
  - now split.
  - injection Heq as -> Heq. injection Hlen as Hlen.
    destruct (IH p' Hlen Heq) as [-> ->]. now split.
Qed.

Lemma prefix_append_iff (a s : string) :
  String.prefix a s = true <-> exists t, s = a ++ t.
Proof.
  revert s. induction a as [| c a IH]; intro s; simpl.
  - split; [intros _; now exists s | intros _; now destruct s].
  - destruct s as [| d s]; simpl.
    + split; [discriminate | intros [t Ht]; discriminate Ht].
    + destruct (ascii_dec c d) as [-> | Hne].
      * rewrite IH. split; intros [t Ht]; exists t.
        -- now rewrite Ht.
        -- now injection Ht.
      * split; [discriminate |].
        intros [t Ht]. injection Ht as Hcd _. congruence.
Qed.

Lemma StringIndexOf_unfold (s search : string) :
  Js.StringIndexOf s search
  = if String.prefix search s then Some 0
    else match s with
         | EmptyString => None
         | String _ s' => option_map S (Js.StringIndexOf s' search)
         end.
Proof. destruct s; reflexivity. Qed.

Lemma StringIndexOf_Some (s search : string) (position : nat) :
  Js.StringIndexOf s search = Some position ->
  exists preceding following,
    first_occurrence s search preceding following
    /\ String.length preceding = position.
Proof.
  revert position. induction s as [| c s IH]; intro position;
    rewrite StringIndexOf_unfold;
    destruct (String.prefix search _) eqn:Hprefix.
  - intros [= <-]. apply prefix_append_iff in Hprefix as [t Ht].
    exists EmptyString, t. repeat split; [exact Ht | intros; simpl; lia].
  - discriminate.
  - intros [= <-]. apply prefix_append_iff in Hprefix as [t Ht].
    exists EmptyString, t. repeat split; [exact Ht | intros; simpl; lia].
  - destruct (Js.StringIndexOf s search) as [m |] eqn:Hrec; [| discriminate].
    intros [= <-].
    destruct (IH m eq_refl) as (pre & post & [Heq Hmin] & Hlen).
    exists (String c pre), post. repeat split.
    + now rewrite Heq at 1.
    + intros [| c' pre'] post' Heq'.
      * exfalso. assert (Hp : String.prefix search (String c s) = true)
          by (apply prefix_append_iff; now exists post').
        congruence.
      * simpl in Heq'. injection Heq' as _ Heq'.
        simpl. specialize (Hmin pre' post' Heq'). lia.
    + simpl. now rewrite Hlen.
Qed.

Lemma StringIndexOf_None (s search : string) :
  Js.StringIndexOf s search = None -> no_occurrence s search.
Proof.
  induction s as [| c s IH]; rewrite StringIndexOf_unfold;
    destruct (String.prefix search _) eqn:Hprefix; try discriminate;
    intros Hnone [| c' pre] post Heq.
  - assert (String.prefix search "" = true)
      by (apply prefix_append_iff; now exists post). congruence.
  - discriminate Heq.
  - assert (String.prefix search (String c s) = true)
      by (apply prefix_append_iff; now exists post). congruence.
  - simpl in Heq. injection Heq as _ Heq.
    destruct (Js.StringIndexOf s search); [discriminate |].
    exact (IH eq_refl pre post Heq).
Qed.

Lemma substring_whole (s : string) :
  String.substring 0 (String.length s) s = s.
Proof. induction s as [| c s IH]; simpl; [reflexivity | now rewrite IH]. Qed.

Lemma substring_head (p r : string) :
  String.substring 0 (String.length p) (p ++ r) = p.
Proof.
  induction p as [| c p IH]; simpl; [now destruct r | now rewrite IH].
Qed.

Lemma substring_skip (p r : string) (n m : nat) :
  String.substring (String.length p + n) m (p ++ r) = String.substring n m r.
Proof. induction p as [| c p IH]; simpl; [reflexivity | exact IH]. Qed.

Lemma GetSubstitution_no_dollar (matched preceding following template : string) :
  no_dollar template = true ->
  Js.GetSubstitution matched preceding following template = template.
Proof.
  induction template as [| c tl IH]; simpl; [reflexivity |].
  intro Hnd. apply andb_prop in Hnd as [Hc Htl].
  apply negb_true_iff in Hc. rewrite Hc. now rewrite IH.
Qed.

(** Without a [$] in the replacement, [Js.replace] puts the replacement
    itself in the place of the first occurrence. *)
Lemma replace_no_dollar (s search replacement : string) :
  no_dollar replacement = true ->
  (forall preceding following,
     first_occurrence s search preceding following ->
     Js.replace s search replacement
     = preceding ++ replacement ++ following)
  /\ (no_occurrence s search -> Js.replace s search replacement = s).
Proof.
  intro Hnd. unfold Js.replace.
  destruct (Js.StringIndexOf s search) as [position |] eqn:Hidx.
  - destruct (StringIndexOf_Some _ _ _ Hidx)
      as (pre & post & [Heq Hmin] & Hlen).
    split.
    + intros pre' post' [Heq' Hmin'].
      assert (Hsame : String.length pre' = String.length pre).
      { specialize (Hmin pre' post' Heq'). specialize (Hmin' pre post Heq).
        lia. }
      assert (Hparts : pre' = pre /\ search ++ post' = search ++ post).
      { apply append_inj_length; [exact Hsame | congruence]. }
      destruct Hparts as [-> Hrest].
      apply append_inj_length in Hrest as [_ ->]; [| reflexivity].
      rewrite GetSubstitution_no_dollar by exact Hnd.
      subst s position.
      rewrite substring_head.
      replace (String.length pre + String.length search)
        with (String.length pre + (String.length search + 0)) by lia.
      rewrite substring_skip, substring_skip.
      rewrite !length_append.
      replace (String.length pre + (String.length search + String.length post)
               - (String.length pre + (String.length search + 0)))
        with (String.length post) by lia.
      now rewrite substring_whole.
    + intro Hno. exfalso. exact (Hno pre post Heq).
  - split; [| reflexivity].
    intros pre post [Heq _]. exfalso.
    exact (StringIndexOf_None _ _ Hidx pre post Heq).
Qed.

(** With no internal endpoint ([S3_ENDPOINT] unset, or set to the empty
    string) every URL is returned as it is. *)
Lemma toPublicUrl_unset (self : FmsService.t) (url : string) :
  Js.truthy (FmsService.internalEndpoint self) = false ->
  FmsService.toPublicUrl self url = url.
Proof.
  unfold FmsService.toPublicUrl.
  destruct (FmsService.internalEndpoint self) as [[| c s] |]; simpl;
    [reflexivity | discriminate | reflexivity].
Qed.

Lemma toPublicUrl_unset_env (env : gmap string string) (url : string) :
  env !! "S3_ENDPOINT" = None ->
  FmsService.toPublicUrl (FmsService.constructor env) url = url.
Proof.
  intro Hunset. apply toPublicUrl_unset. simpl. now rewrite Hunset.
Qed.

(** With both endpoints set and no [$] in the public one, the first
    occurrence of the internal endpoint is replaced by the public endpoint,
    and a URL without the internal endpoint is returned as it is. *)
Lemma toPublicUrl_no_dollar (self : FmsService.t)
    (internal public url : string) :
  FmsService.internalEndpoint self = Some internal ->
  FmsService.publicEndpoint self = Some public ->
  internal <> "" -> public <> "" ->
  no_dollar public = true ->
  (forall preceding following,
     first_occurrence url internal preceding following ->
     FmsService.toPublicUrl self url = preceding ++ public ++ following)
  /\ (no_occurrence url internal -> FmsService.toPublicUrl self url = url).
Proof.
  intros Hint Hpub Hi Hp Hnd. unfold FmsService.toPublicUrl.
  rewrite Hint, Hpub.
  destruct internal as [| ci internal]; [congruence |].
  destruct public as [| cp public]; [congruence |].
  now apply replace_no_dollar.
Qed.

Example toPublicUrl_docker :
  FmsService.toPublicUrl Sample.docker
    "http://localstack:4566/demo-bucket/profile/john123.jpg?X-Amz-Expires=300"
  = "http://localhost:4566/demo-bucket/profile/john123.jpg?X-Amz-Expires=300".
Proof. reflexivity. Qed.

Example toPublicUrl_first_occurrence_only :
  FmsService.toPublicUrl Sample.docker
    "http://localstack:4566/demo-bucket/k?next=http://localstack:4566"
  = "http://localhost:4566/demo-bucket/k?next=http://localstack:4566".
Proof. reflexivity. Qed.

(** C5 at a public endpoint that contains [$$]: both endpoints are set and
    the internal one occurs at the start of the URL, yet what is put in its
    place is not the public endpoint, because [replace] reads [$$] in its
    second argument as a pattern for a single [$]. *)
Theorem toPublicUrl_dollar_endpoint :
  let url :=
    "http://localstack:4566/demo-bucket/profile/john123.jpg?X-Amz-Expires=300"
  in
  let following := "/demo-bucket/profile/john123.jpg?X-Amz-Expires=300" in
  Sample.dollar_env !! "S3_ENDPOINT" = Some "http://localstack:4566"
  /\ Sample.dollar_env !! "S3_PUBLIC_ENDPOINT"
     = Some "http://localhost:4566/a$$b"
  /\ FmsService.internalEndpoint Sample.dollar = Some "http://localstack:4566"
  /\ FmsService.publicEndpoint Sample.dollar
     = Some "http://localhost:4566/a$$b"
  /\ first_occurrence url "http://localstack:4566" "" following
  /\ FmsService.toPublicUrl Sample.dollar url
     = "http://localhost:4566/a$b" ++ following
  /\ FmsService.toPublicUrl Sample.dollar url
     <> "" ++ "http://localhost:4566/a$$b" ++ following.
Proof.
  intros url following.
  split; [reflexivity |]. split; [reflexivity |].
  split; [reflexivity |]. split; [reflexivity |].
  split; [| split; [reflexivity | discriminate]].
  split; [reflexivity |].
  intros preceding' following' _. simpl. lia.
Qed.

(** * Further properties of the service *)

(** ** More on URL rewriting *)

Lemma occurrence_cases (s search : string) :
  no_occurrence s search
  \/ exists preceding following, first_occurrence s search preceding following.
Proof.
  destruct (Js.StringIndexOf s search) as [position |] eqn:Hidx.
  - right. destruct (StringIndexOf_Some _ _ _ Hidx) as (pre & post & Hfirst & _).
    now exists pre, post.
  - left. now apply StringIndexOf_None.
Qed.

Lemma first_occurrence_unique (s search p p' f f' : string) :
  first_occurrence s search p f -> first_occurrence s search p' f' ->
  p = p' /\ f = f'.
Proof.
  intros [Heq Hmin] [Heq' Hmin'].
  assert (Hlen : String.length p = String.length p').
  { specialize (Hmin p' f' Heq'). specialize (Hmin' p f Heq). lia. }
  assert (Hparts : p = p' /\ search ++ f = search ++ f').
  { apply append_inj_length; [exact Hlen | congruence]. }
  destruct Hparts as [-> Hrest].
  apply append_inj_length in Hrest as [_ ->]; [now split | reflexivity].
Qed.

Lemma first_occurrence_at_start (search rest : string) :
  first_occurrence (search ++ rest) search "" rest.
Proof. split; [reflexivity | intros; simpl; lia]. Qed.

(** [Js.replace] changes nothing but the first occurrence, whatever the
    replacement pattern is. *)
Lemma replace_at_first_occurrence
    (s search replacement preceding following : string) :
  first_occurrence s search preceding following ->
  Js.replace s search replacement
  = preceding
      ++ Js.GetSubstitution search preceding following replacement
      ++ following.
Proof.
  intro Hfirst. unfold Js.replace.
  destruct (Js.StringIndexOf s search) as [position |] eqn:Hidx.
  - destruct (StringIndexOf_Some _ _ _ Hidx) as (pre & post & Hfirst' & Hlen).
    destruct (first_occurrence_unique _ _ _ _ _ _ Hfirst Hfirst') as [<- <-].
    destruct Hfirst as [Heq _]. subst s position.
    rewrite substring_head.
    replace (String.length preceding + String.length search)
      with (String.length preceding + (String.length search + 0)) by lia.
    rewrite substring_skip, substring_skip.
    rewrite !length_append.
    replace (String.length preceding
             + (String.length search + String.length following)
             - (String.length preceding + (String.length search + 0)))
      with (String.length following) by lia.
    now rewrite substring_whole.
  - destruct Hfirst as [Heq _]. exfalso.
    exact (StringIndexOf_None _ _ Hidx preceding following Heq).
Qed.

Lemma replace_no_occurrence (s search replacement : string) :
  no_occurrence s search -> Js.replace s search replacement = s.
Proof.
  intro Hno. unfold Js.replace.
  destruct (Js.StringIndexOf s search) as [position |] eqn:Hidx;
    [| reflexivity].
  destruct (StringIndexOf_Some _ _ _ Hidx) as (pre & post & [Heq _] & _).
  exfalso. exact (Hno pre post Heq).
Qed.

(** The endpoints of a service built from an environment in which
    [S3_ENDPOINT] is a non-empty string. *)
Lemma constructor_endpoints (env : gmap string string) (internal : string) :
  env !! "S3_ENDPOINT" = Some internal -> internal <> "" ->
  FmsService.internalEndpoint (FmsService.constructor env) = Some internal
  /\ FmsService.publicEndpoint (FmsService.constructor env)
     = Some (Js.or_default (env !! "S3_PUBLIC_ENDPOINT") internal)
  /\ Js.or_default (env !! "S3_PUBLIC_ENDPOINT") internal <> "".
Proof.
  intros Hint Hne. unfold FmsService.constructor; simpl. rewrite Hint.
  split; [reflexivity |].
  destruct (env !! "S3_PUBLIC_ENDPOINT") as [[| c p] |]; simpl;
    (split; [reflexivity | congruence]).
Qed.

Lemma toPublicUrl_constructor (env : gmap string string)
    (internal url : string) :
  env !! "S3_ENDPOINT" = Some internal -> internal <> "" ->
  FmsService.toPublicUrl (FmsService.constructor env) url
  = Js.replace url internal
      (Js.or_default (env !! "S3_PUBLIC_ENDPOINT") internal).
Proof.
  intros Hint Hne.
  destruct (constructor_endpoints env internal Hint Hne) as (Hi & Hp & Hpne).
  unfold FmsService.toPublicUrl. rewrite Hi, Hp.
  destruct internal as [| ci internal]; [congruence |].
  destruct (Js.or_default _ _) as [| cp public]; [congruence | reflexivity].
Qed.

(** X1: for a service built from an environment where [S3_ENDPOINT] and
    [S3_PUBLIC_ENDPOINT] are non-empty and the public endpoint contains no
    [$], [toPublicUrl] returns the URL with the first occurrence of the
    internal endpoint replaced by the public endpoint, and everything before
    and after that occurrence as it was. *)
Theorem toPublicUrl_rewrites_first_occurrence :
  forall (env : gmap string string)
         (internal public url preceding following : string),
    env !! "S3_ENDPOINT" = Some internal -> internal <> "" ->
    env !! "S3_PUBLIC_ENDPOINT" = Some public -> public <> "" ->
    no_dollar public = true ->
    first_occurrence url internal preceding following ->
    FmsService.toPublicUrl (FmsService.constructor env) url
    = preceding ++ public ++ following.
Proof.
  intros env internal public url preceding following
    Hint Hi Hpub Hp Hnd Hfirst.
  rewrite (toPublicUrl_constructor env internal url Hint Hi), Hpub.
  destruct public as [| c public]; [congruence |]. simpl Js.or_default.
  rewrite (replace_at_first_occurrence _ _ _ _ _ Hfirst).
  now rewrite GetSubstitution_no_dollar.
Qed.

(** X1, for a URL that names the internal endpoint twice. *)
Lemma toPublicUrl_rewrites_first_occurrence_witness :
  FmsService.toPublicUrl Sample.docker
    ("http://aws/?via=" ++ "http://localstack:4566"
       ++ "/k?next=http://localstack:4566")
  = "http://aws/?via=" ++ "http://localhost:4566"
      ++ "/k?next=http://localstack:4566".
Proof.
  apply (toPublicUrl_rewrites_first_occurrence Sample.docker_env
           "http://localstack:4566" "http://localhost:4566"
           ("http://aws/?via=" ++ "http://localstack:4566"
              ++ "/k?next=http://localstack:4566")
           "http://aws/?via=" "/k?next=http://localstack:4566").
  - reflexivity.
  - discriminate.
  - reflexivity.
  - discriminate.
  - reflexivity.
  - split; [reflexivity |].
    intros p f Heq.
    destruct (Nat.le_gt_cases (String.length "http://aws/?via=")
                (String.length p)) as [Hle | Hgt]; [exact Hle |].
    exfalso.
    assert (Hfound :
              Js.StringIndexOf
                ("http://aws/?via=" ++ "http://localstack:4566"
                   ++ "/k?next=http://localstack:4566")
                "http://localstack:4566" = Some 16) by reflexivity.
    destruct (StringIndexOf_Some _ _ _ Hfound)
      as (pre & post & [_ Hmin] & Hlen).
    specialize (Hmin p f Heq). simpl in Hgt. lia.
Defined.

(** X2: [toPublicUrl] returns the URL unchanged when there is nothing to
    rewrite: when [S3_ENDPOINT] is unset or empty, whatever
    [S3_PUBLIC_ENDPOINT] is, and when the internal endpoint does not occur
    in the URL, whatever the public endpoint contains. *)
Theorem toPublicUrl_nothing_to_rewrite :
  forall (env : gmap string string) (url : string),
    (Js.truthy (env !! "S3_ENDPOINT") = false ->
     FmsService.toPublicUrl (FmsService.constructor env) url = url)
    /\ (forall internal,
          env !! "S3_ENDPOINT" = Some internal ->
          no_occurrence url internal ->
          FmsService.toPublicUrl (FmsService.constructor env) url = url).
Proof.
  intros env url. split.
  - intro Hfalsy. now apply toPublicUrl_unset.
  - intros internal Hint Hno.
    destruct internal as [| c internal].
    + apply toPublicUrl_unset. simpl. now rewrite Hint.
    + rewrite (toPublicUrl_constructor env _ url Hint) by discriminate.
      now apply replace_no_occurrence.
Qed.

(** X2, with only the public endpoint set. *)
Lemma toPublicUrl_nothing_to_rewrite_witness :
  FmsService.toPublicUrl
    (FmsService.constructor
       (<["S3_PUBLIC_ENDPOINT" := "http://localhost:4566"]> ∅))
    "http://localstack:4566/demo-bucket/k"
  = "http://localstack:4566/demo-bucket/k".
Proof.
  apply (proj1 (toPublicUrl_nothing_to_rewrite
                  (<["S3_PUBLIC_ENDPOINT" := "http://localhost:4566"]> ∅)
                  "http://localstack:4566/demo-bucket/k")).
  reflexivity.
Defined.

(** X3: without a usable [S3_PUBLIC_ENDPOINT] (unset or empty) the public
    endpoint falls back to the internal one, and then [toPublicUrl] returns
    every URL unchanged, provided the internal endpoint contains no [$]. *)
Theorem toPublicUrl_fallback_is_identity :
  forall (env : gmap string string) (internal url : string),
    env !! "S3_ENDPOINT" = Some internal ->
    Js.truthy (env !! "S3_PUBLIC_ENDPOINT") = false ->
    no_dollar internal = true ->
    FmsService.publicEndpoint (FmsService.constructor env)
    = FmsService.internalEndpoint (FmsService.constructor env)
    /\ FmsService.toPublicUrl (FmsService.constructor env) url = url.
Proof.
  intros env internal url Hint Hpub Hnd.
  assert (Hfallback :
            forall d, Js.or_default (env !! "S3_PUBLIC_ENDPOINT") d = d).
  { intro d. destruct (env !! "S3_PUBLIC_ENDPOINT") as [[| c p] |];
      [reflexivity | discriminate Hpub | reflexivity]. }
  split.
  - unfold FmsService.constructor; simpl. unfold Js.or_else.
    now rewrite Hpub.
  - destruct internal as [| c internal].
    + apply toPublicUrl_unset. simpl. now rewrite Hint.
    + rewrite (toPublicUrl_constructor env _ url Hint) by discriminate.
      rewrite Hfallback.
      destruct (occurrence_cases url (String c internal))
        as [Hno | (pre & post & Hfirst)].
      * now apply replace_no_occurrence.
      * rewrite (replace_at_first_occurrence _ _ _ _ _ Hfirst).
        rewrite GetSubstitution_no_dollar by exact Hnd.
        destruct Hfirst as [Heq _]. now rewrite Heq.
Qed.

(** X3, for the Docker deployment without [S3_PUBLIC_ENDPOINT]. *)
Lemma toPublicUrl_fallback_is_identity_witness :
  FmsService.toPublicUrl
    (FmsService.constructor
       (<["S3_ENDPOINT" := "http://localstack:4566"]> ∅))
    "http://localstack:4566/demo-bucket/k"
  = "http://localstack:4566/demo-bucket/k".
Proof.
  refine (proj2 (toPublicUrl_fallback_is_identity
                   (<["S3_ENDPOINT" := "http://localstack:4566"]> ∅)
                   "http://localstack:4566"
                   "http://localstack:4566/demo-bucket/k" _ _ _));
    reflexivity.
Defined.

(** X4: whatever the two endpoints contain, [toPublicUrl] leaves the text
    before and the text after the first occurrence of the internal endpoint
    as they are; what it puts in between is the public endpoint with its
    replacement patterns expanded. *)
Theorem toPublicUrl_keeps_surroundings :
  forall (self : FmsService.t) (internal public url preceding following : string),
    FmsService.internalEndpoint self = Some internal -> internal <> "" ->
    FmsService.publicEndpoint self = Some public -> public <> "" ->
    first_occurrence url internal preceding following ->
    FmsService.toPublicUrl self url
    = preceding
        ++ Js.GetSubstitution internal preceding following public
        ++ following.
Proof.
  intros self internal public url preceding following Hint Hi Hpub Hp Hfirst.
  unfold FmsService.toPublicUrl. rewrite Hint, Hpub.
  destruct internal as [| ci internal]; [congruence |].
  destruct public as [| cp public]; [congruence |].
  now apply replace_at_first_occurrence.
Qed.

(** X4, for a public endpoint that ends in the pattern [$&]. *)
Lemma toPublicUrl_keeps_surroundings_witness :
  FmsService.toPublicUrl
    (FmsService.constructor
       (<["S3_ENDPOINT" := "http://ls"]>
          (<["S3_PUBLIC_ENDPOINT" := "http://pub/$&"]> ∅)))
    ("http://ls" ++ "/bucket/k?sig=1")
  = "" ++ "http://pub/http://ls" ++ "/bucket/k?sig=1".
Proof.
  apply (toPublicUrl_keeps_surroundings
           (FmsService.constructor
              (<["S3_ENDPOINT" := "http://ls"]>
                 (<["S3_PUBLIC_ENDPOINT" := "http://pub/$&"]> ∅)))
           "http://ls" "http://pub/$&" ("http://ls" ++ "/bucket/k?sig=1")
           "" "/bucket/k?sig=1").
  - reflexivity.
  - discriminate.
  - reflexivity.
  - discriminate.
  - apply first_occurrence_at_start.
Defined.

(** ** What the asynchronous methods hand back *)

(** X5: the URL handed to the client is the SDK's signed URL passed through
    [toPublicUrl], and a rejection of [getSignedUrl] is passed on as it is,
    for the view path on every key and for the upload path on every valid
    request. *)
Theorem presigned_url_is_rewritten `{Runtime} :
  forall (self : FmsService.t) (key : string) (history : list Sdk.Call),
    outcome (FmsService.getPreSignedURLToViewObject self key) history
    = match getSignedUrl_answer history (FmsService.s3Client self)
              (Sdk.GetObjectCommand
                 {| Sdk.GetObject.Bucket := FmsService.bucketName self;
                    Sdk.GetObject.Key := key |})
              300 with
      | inl url => Returned (FmsService.toPublicUrl self url)
      | inr message => Thrown (SdkError message)
      end
    /\ forall contentType fileSize,
         valid_upload contentType fileSize ->
         outcome (FmsService.getPreSignedURL self key contentType fileSize)
           history
         = match getSignedUrl_answer history (FmsService.s3Client self)
                   (Sdk.PutObjectCommand
                      {| Sdk.PutObject.Bucket := FmsService.bucketName self;
                         Sdk.PutObject.Key := key;
                         Sdk.PutObject.ContentType := contentType;
                         Sdk.PutObject.ContentLength := fileSize |})
                   1800 with
           | inl url => Returned (FmsService.toPublicUrl self url)
           | inr message => Thrown (SdkError message)
           end.
Proof.
  intros self key history. unfold outcome. split.
  - now rewrite getPreSignedURLToViewObject_signs.
  - intros contentType fileSize Hvalid.
    destruct (valid_upload_validates _ _ Hvalid) as [Hct Hfs].
    now rewrite (getPreSignedURL_signs _ _ _ _ _ Hct Hfs).
Qed.

(** X5, for a PNG of one kilobyte and an SDK that refuses the empty key. *)
Lemma presigned_url_is_rewritten_witness :
  valid_upload "image/png" 1024%float
  /\ outcome
       (FmsService.getPreSignedURL (H := Sample.strict_runtime) Sample.docker
          "" "image/png" 1024%float) []
     = Thrown (SdkError "Empty value provided for input HTTP label: Key.").
Proof.
  assert (Hvalid : valid_upload "image/png" 1024%float).
  { split; [right; right; left; reflexivity | split; reflexivity]. }
  split; [exact Hvalid |].
  exact (proj2 (presigned_url_is_rewritten (H := Sample.strict_runtime)
                  Sample.docker "" [])
           "image/png" 1024%float Hvalid).
Defined.

(** X6: in a deployment with both endpoints set and no [$] in the public
    one, when the SDK signs a URL that starts with the internal endpoint the
    client receives the same URL on the public endpoint: the path and the
    query string are those the SDK signed. *)
Theorem client_receives_public_url `{Runtime} :
  forall (env : gmap string string) (internal public : string),
    env !! "S3_ENDPOINT" = Some internal -> internal <> "" ->
    env !! "S3_PUBLIC_ENDPOINT" = Some public -> public <> "" ->
    no_dollar public = true ->
    forall (key rest : string) (history : list Sdk.Call),
      let self := FmsService.constructor env in
      (getSignedUrl_answer history (FmsService.s3Client self)
         (get_command self key) 300 = inl (internal ++ rest) ->
       outcome (FmsService.getPreSignedURLToViewObject self key) history
       = Returned (public ++ rest))
      /\ (forall contentType fileSize,
            valid_upload contentType fileSize ->
            getSignedUrl_answer history (FmsService.s3Client self)
              (put_command self key contentType fileSize) 1800
            = inl (internal ++ rest) ->
            outcome
              (FmsService.getPreSignedURL self key contentType fileSize)
              history
            = Returned (public ++ rest)).
Proof.
  intros env internal public Hint Hi Hpub Hp Hnd key rest history self.
  assert (Hrewrite :
            FmsService.toPublicUrl self (internal ++ rest) = public ++ rest).
  { destruct public as [| c public]; [congruence |].
    unfold self.
    rewrite (toPublicUrl_constructor env internal _ Hint Hi), Hpub.
    simpl Js.or_default.
    rewrite (replace_at_first_occurrence _ _ _ _ _
               (first_occurrence_at_start internal rest)).
    now rewrite GetSubstitution_no_dollar. }
  unfold outcome. split.
  - intro Hanswer. rewrite getPreSignedURLToViewObject_signs.
    unfold signed. cbn [fst]. now rewrite Hanswer, Hrewrite.
  - intros contentType fileSize Hvalid Hanswer.
    destruct (valid_upload_validates _ _ Hvalid) as [Hct Hfs].
    rewrite (getPreSignedURL_signs _ _ _ _ _ Hct Hfs).
    unfold signed. cbn [fst]. now rewrite Hanswer, Hrewrite.
Qed.

(** X6, for the view of one photo in the Docker deployment. *)
Lemma client_receives_public_url_witness :
  outcome
    (FmsService.getPreSignedURLToViewObject (H := Sample.runtime)
       Sample.docker "profile/john123.jpg") []
  = Returned
      ("http://localhost:4566"
         ++ "/demo-bucket/profile/john123.jpg?X-Amz-Expires=300").
Proof.
  refine (proj1 (client_receives_public_url (H := Sample.runtime)
                   Sample.docker_env
                   "http://localstack:4566" "http://localhost:4566"
                   _ _ _ _ _
                   "profile/john123.jpg"
                   "/demo-bucket/profile/john123.jpg?X-Amz-Expires=300" [])
            _);
    solve [reflexivity | discriminate].
Defined.

(** X7: [getPreSignedURL] checks the content type before the size.  A
    content type that is not on the list is reported with its own message
    whatever the size is, and a size that is not positive is reported only
    for a content type that is on the list; in both cases no SDK call is
    made. *)
Theorem content_type_is_checked_first `{Runtime} :
  forall (self : FmsService.t) (key contentType : string)
         (fileSize : Js.number) (history : list Sdk.Call),
    (~ In contentType ALLOWED_MIME_TYPES ->
     FmsService.getPreSignedURL self key contentType fileSize history
     = (Thrown (BadRequestException
          ("Invalid file type: " ++ contentType
             ++ ". Allowed types: image/jpeg, image/jpg, image/png, image/webp")),
        []))
    /\ (In contentType ALLOWED_MIME_TYPES ->
        ~ positive_number fileSize ->
        FmsService.getPreSignedURL self key contentType fileSize history
        = (Thrown (BadRequestException "File size must be a positive number"),
           [])).
Proof.
  intros self key contentType fileSize history. split.
  - intro Hout. apply getPreSignedURL_thrown_contentType.
    unfold FmsService.validateContentType.
    destruct (Js.includes ALLOWED_MIME_TYPES contentType) eqn:Hinc;
      [| reflexivity].
    apply includes_In in Hinc. contradiction.
  - intros Hin Hnp.
    destruct (validateContentType_cases contentType) as [[_ Hct] | [Hn _]];
      [| contradiction].
    apply getPreSignedURL_thrown_fileSize; [exact Hct |].
    destruct (validateFileSize_cases fileSize)
      as [(Hpos & _) | [(_ & Hthrown) | (Hpos & _)]];
      [contradiction | exact Hthrown | contradiction].
Qed.

(** X7, for a GIF whose size is [NaN]. *)
Lemma content_type_is_checked_first_witness :
  ~ In "image/gif" ALLOWED_MIME_TYPES
  /\ FmsService.getPreSignedURL (H := Sample.runtime) Sample.docker
       "profile/a.gif" "image/gif" nan []
     = (Thrown (BadRequestException
          ("Invalid file type: " ++ "image/gif"
             ++ ". Allowed types: image/jpeg, image/jpg, image/png, image/webp")),
        []).
Proof.
  assert (Hout : ~ In "image/gif" ALLOWED_MIME_TYPES).
  { intro Hin. apply includes_In in Hin. discriminate Hin. }
  split; [exact Hout |].
  exact (proj1 (content_type_is_checked_first (H := Sample.runtime)
                  Sample.docker "profile/a.gif" "image/gif" nan [])
           Hout).
Defined.

(** X8: a method call makes at most one SDK call, and that call is made on
    the service's own client, addresses the configured bucket and carries
    the key the method was given, unchanged. *)
Theorem sdk_calls_stay_in_bucket `{Runtime} :
  forall (self : FmsService.t) (method : MethodCall)
         (history : list Sdk.Call),
    length (sdk_calls self method history) <= 1
    /\ forall call,
         In call (sdk_calls self method history) ->
         call_client call = FmsService.s3Client self
         /\ command_bucket (call_command call) = FmsService.bucketName self
         /\ method_key method = Some (command_key (call_command call)).
Proof.
  intros self method history.
  destruct method as [ct | fs | key ct fs | key | key]; simpl sdk_calls.
  - split; [simpl; lia | intros call []].
  - split; [simpl; lia | intros call []].
  - destruct (getPreSignedURL_calls self key ct fs history)
      as [[_ ->] | [_ ->]].
    + split; [simpl; lia | intros call []].
    + split; [simpl; lia |].
      intros call [<- | []]. now repeat split.
  - unfold calls. rewrite getPreSignedURLToViewObject_signs. cbn [snd].
    split; [simpl; lia |].
    intros call [<- | []]. now repeat split.
  - unfold calls. rewrite deleteObject_sends. cbn [snd].
    split; [simpl; lia |].
    intros call [<- | []]. now repeat split.
Qed.

(** X8, for the one call of [deleteObject]. *)
Lemma sdk_calls_stay_in_bucket_witness :
  command_bucket
    (call_command
       (Sdk.send (FmsService.s3Client Sample.aws)
          (delete_command Sample.aws "profile/john123.jpg")))
  = "demo-bucket".
Proof.
  refine (proj1 (proj2 (proj2 (sdk_calls_stay_in_bucket (H := Sample.runtime)
                    Sample.aws (DeleteObject "profile/john123.jpg") [])
                    _ _)));
    left; reflexivity.
Defined.

(** ** The constructor *)

Lemma or_default_cases (a : option string) (d : string) :
  (Js.truthy a = false /\ Js.or_default a d = d)
  \/ (exists s, a = Some s /\ s <> "" /\ Js.truthy a = true
                /\ Js.or_default a d = s).
Proof.
  destruct a as [[| c s] |]; simpl.
  - left. now split.
  - right. exists (String c s). now repeat split.
  - left. now split.
Qed.

(** X9: the constructor never yields an empty bucket name, region or
    credential: a variable that is unset or set to the empty string gives
    the default ([demo-bucket], [us-east-1], [test]), and a non-empty one is
    taken as it is. *)
Theorem constructor_defaults :
  forall env : gmap string string,
    let self := FmsService.constructor env in
    let client := FmsService.s3Client self in
    (FmsService.bucketName self <> ""
     /\ Sdk.region client <> ""
     /\ Sdk.accessKeyId (Sdk.credentials client) <> ""
     /\ Sdk.secretAccessKey (Sdk.credentials client) <> "")
    /\ (Js.truthy (env !! "AWS_BUCKET_NAME") = false ->
        FmsService.bucketName self = "demo-bucket")
    /\ (Js.truthy (env !! "AWS_BUCKET_REGION") = false ->
        Sdk.region client = "us-east-1")
    /\ (Js.truthy (env !! "AWS_ACCESS_KEY") = false ->
        Sdk.accessKeyId (Sdk.credentials client) = "test")
    /\ (Js.truthy (env !! "AWS_SECRET_KEY") = false ->
        Sdk.secretAccessKey (Sdk.credentials client) = "test")
    /\ (forall name,
          env !! "AWS_BUCKET_NAME" = Some name -> name <> "" ->
          FmsService.bucketName self = name).
Proof.
  intros env self client. subst client self.
  unfold FmsService.constructor; cbn [FmsService.bucketName
    FmsService.s3Client Sdk.region Sdk.credentials Sdk.accessKeyId
    Sdk.secretAccessKey].
  repeat split.
  - destruct (or_default_cases (env !! "AWS_BUCKET_NAME") "demo-bucket")
      as [[_ ->] | (s & _ & Hs & _ & ->)]; [discriminate | exact Hs].
  - destruct (or_default_cases (env !! "AWS_BUCKET_REGION") "us-east-1")
      as [[_ ->] | (s & _ & Hs & _ & ->)]; [discriminate | exact Hs].
  - destruct (or_default_cases (env !! "AWS_ACCESS_KEY") "test")
      as [[_ ->] | (s & _ & Hs & _ & ->)]; [discriminate | exact Hs].
  - destruct (or_default_cases (env !! "AWS_SECRET_KEY") "test")
      as [[_ ->] | (s & _ & Hs & _ & ->)]; [discriminate | exact Hs].
  - intro Hf.
    destruct (or_default_cases (env !! "AWS_BUCKET_NAME") "demo-bucket")
      as [[_ ->] | (s & _ & _ & Ht & _)]; [reflexivity | congruence].
  - intro Hf.
    destruct (or_default_cases (env !! "AWS_BUCKET_REGION") "us-east-1")
      as [[_ ->] | (s & _ & _ & Ht & _)]; [reflexivity | congruence].
  - intro Hf.
    destruct (or_default_cases (env !! "AWS_ACCESS_KEY") "test")
      as [[_ ->] | (s & _ & _ & Ht & _)]; [reflexivity | congruence].
  - intro Hf.
    destruct (or_default_cases (env !! "AWS_SECRET_KEY") "test")
      as [[_ ->] | (s & _ & _ & Ht & _)]; [reflexivity | congruence].
  - intros name Hname Hne. rewrite Hname.
    destruct name as [| c name]; [congruence | reflexivity].
Qed.

(** X9, for a bucket name set to the empty string. *)
Lemma constructor_defaults_witness :
  FmsService.bucketName
    (FmsService.constructor (<["AWS_BUCKET_NAME" := ""]> ∅))
  = "demo-bucket".
Proof.
  apply (proj1 (proj2 (constructor_defaults (<["AWS_BUCKET_NAME" := ""]> ∅)))).
  reflexivity.
Defined.

(** X10: the S3 client is pointed at an endpoint exactly when [S3_ENDPOINT]
    is a non-empty string, and then at that internal endpoint, with
    [forcePathStyle] set and a non-empty public endpoint to rewrite to;
    otherwise the client has neither [endpoint] nor [forcePathStyle].  The
    client is never pointed at [S3_PUBLIC_ENDPOINT]. *)
Theorem constructor_localstack_mode :
  forall env : gmap string string,
    let self := FmsService.constructor env in
    let client := FmsService.s3Client self in
    (Js.truthy (env !! "S3_ENDPOINT") = true ->
     Sdk.endpoint client = env !! "S3_ENDPOINT"
     /\ Sdk.forcePathStyle client = Some true
     /\ Js.truthy (FmsService.publicEndpoint self) = true)
    /\ (Js.truthy (env !! "S3_ENDPOINT") = false ->
        Sdk.endpoint client = None /\ Sdk.forcePathStyle client = None)
    /\ (Sdk.endpoint client = None
        \/ Sdk.endpoint client = FmsService.internalEndpoint self).
Proof.
  intros env self client. subst client self.
  unfold FmsService.constructor; cbn [FmsService.s3Client Sdk.endpoint
    Sdk.forcePathStyle FmsService.publicEndpoint
    FmsService.internalEndpoint].
  destruct (Js.truthy (env !! "S3_ENDPOINT")) eqn:Hint.
  - split; [| split; [discriminate | now right]].
    intros _. repeat split. unfold Js.or_else.
    destruct (Js.truthy (env !! "S3_PUBLIC_ENDPOINT")) eqn:Hpub;
      assumption.
  - split; [discriminate | split; [now split | now left]].
Qed.

(** X10, for the Docker deployment. *)
Lemma constructor_localstack_mode_witness :
  Sdk.endpoint (FmsService.s3Client Sample.docker)
  = Some "http://localstack:4566"
  /\ Sdk.forcePathStyle (FmsService.s3Client Sample.docker) = Some true
  /\ Js.truthy (FmsService.publicEndpoint Sample.docker) = true.
Proof.
  apply (proj1 (constructor_localstack_mode Sample.docker_env)).
  reflexivity.
Defined.

(** ** The accepted sizes *)

Lemma compare_cont_Eq_spec (p q : positive) :
  CompareSpec (p = q) (Z.pos p < Z.pos q)%Z (Z.pos q < Z.pos p)%Z
    (Pos.compare_cont Eq p q).
Proof.
  change (Pos.compare_cont Eq p q) with (Pos.compare p q).
  destruct (Pos.compare_spec p q); constructor; [assumption | lia | lia].
Qed.

Lemma SFleb_key (a b : spec_float) (ka kb : Z * Z * Z) :
  SFkey a = Some ka -> SFkey b = Some kb ->
  (SFleb a b = true <-> key_le ka kb).
Proof.
  unfold SFleb.
  destruct a as [sa | sa | | sa ma ea], b as [sb | sb | | sb mb eb];
    try destruct sa; try destruct sb; simpl;
    intros [= <-] [= <-]; unfold key_le;
    try (split; [intros _; lia | reflexivity]);
    try (split; [discriminate | lia]).
  - destruct (Z.compare_spec ea eb) as [-> | Hlt | Hgt].
    + destruct (compare_cont_Eq_spec ma mb) as [-> | Hm | Hm]; simpl;
        (split; [intros _; lia | (reflexivity || lia)]) ||
        (split; [discriminate | lia]).
    + split; [discriminate | lia].
    + split; [intros _; lia | reflexivity].
  - destruct (Z.compare_spec ea eb) as [-> | Hlt | Hgt].
    + destruct (compare_cont_Eq_spec ma mb) as [-> | Hm | Hm]; simpl;
        (split; [intros _; lia | (reflexivity || lia)]) ||
        (split; [discriminate | lia]).
    + split; [intros _; lia | reflexivity].
    + split; [discriminate | lia].
Qed.

Lemma SFleb_has_keys (a b : spec_float) :
  SFleb a b = true -> exists ka kb, SFkey a = Some ka /\ SFkey b = Some kb.
Proof.
  unfold SFleb.
  destruct a as [sa | sa | | sa ma ea], b as [sb | sb | | sb mb eb];
    try destruct sa; try destruct sb; simpl; try discriminate;
    intros _; eexists; eexists; split; reflexivity.
Qed.

Lemma key_le_trans (a b c : Z * Z * Z) :
  key_le a b -> key_le b c -> key_le a c.
Proof.
  destruct a as [[c1 e1] m1], b as [[c2 e2] m2], c as [[c3 e3] m3].
  unfold key_le. lia.
Qed.

(** [<=] on numbers is transitive. *)
Lemma le_trans (x y z : Js.number) :
  Js.le x y = true -> Js.le y z = true -> Js.le x z = true.
Proof.
  unfold Js.le. rewrite !FloatAxioms.leb_spec. intros Hxy Hyz.
  destruct (SFleb_has_keys _ _ Hxy) as (kx & ky & Hkx & Hky).
  destruct (SFleb_has_keys _ _ Hyz) as (ky' & kz & Hky' & Hkz).
  assert (ky' = ky) by congruence. subst ky'.
  apply (SFleb_key _ _ _ _ Hkx Hkz).
  apply (key_le_trans kx ky kz).
  - now apply (SFleb_key _ _ _ _ Hkx Hky).
  - now apply (SFleb_key _ _ _ _ Hky Hkz).
Qed.

Lemma validateFileSize_Returned `{Runtime} (fileSize : Js.number) :
  FmsService.validateFileSize fileSize = Returned tt ->
  positive_number fileSize /\ Js.le fileSize MAX_FILE_SIZE_BYTES = true.
Proof.
  intro Hok.
  destruct (validateFileSize_cases fileSize)
    as [(Hpos & Hle & _) | [(_ & Hthrown) | (_ & _ & _ & m & Hthrown)]];
    [now split | congruence | congruence].
Qed.

(** A positive number that is at most [MAX_FILE_SIZE_BYTES] is finite. *)
Lemma accepted_is_finite (x : Js.number) :
  positive_number x -> Js.le x MAX_FILE_SIZE_BYTES = true ->
  PrimFloat.is_finite x = true.
Proof.
  unfold positive_number, Js.lt, Js.le, is_finite, is_nan, is_infinity.
  rewrite FloatAxioms.ltb_spec, FloatAxioms.leb_spec, !FloatAxioms.eqb_spec,
    FloatAxioms.abs_spec.
  replace (Prim2SF 0) with (S754_zero false) by reflexivity.
  replace (Prim2SF MAX_FILE_SIZE_BYTES)
    with (S754_finite false 5629499534213120 (-30)) by reflexivity.
  replace (Prim2SF infinity) with (S754_infinity false) by reflexivity.
  unfold SFltb, SFleb, SFeqb.
  destruct (Prim2SF x) as [s | s | | s m e]; try destruct s;
    try discriminate.
  intros _ _. rewrite SFcompare_finite_refl. reflexivity.
Qed.

(** X11: the sizes [validateFileSize] accepts are closed downwards: when a
    size is accepted, every positive size that is not larger is accepted
    too. *)
Theorem validateFileSize_downward_closed `{Runtime} :
  forall accepted smaller : Js.number,
    FmsService.validateFileSize accepted = Returned tt ->
    positive_number smaller ->
    Js.le smaller accepted = true ->
    FmsService.validateFileSize smaller = Returned tt.
Proof.
  intros accepted smaller Hok Hpos Hle.
  destruct (validateFileSize_Returned accepted Hok) as [_ Hmax].
  apply (valid_upload_validates "image/png" smaller).
  split; [right; right; left; reflexivity |].
  split; [exact Hpos | exact (le_trans _ _ _ Hle Hmax)].
Qed.

(** X11, from the ceiling down to half a kilobyte. *)
Lemma validateFileSize_downward_closed_witness :
  FmsService.validateFileSize (H := Sample.runtime) 512%float = Returned tt.
Proof.
  apply (validateFileSize_downward_closed (H := Sample.runtime)
           5242880%float 512%float); reflexivity.
Defined.

(** X12: [getPreSignedURL] signs a [PutObjectCommand] only for a content
    type that is on the allow-list and a [ContentLength] that is a finite
    number, greater than zero and at most [MAX_FILE_SIZE_BYTES]. *)
Theorem signed_uploads_are_within_limits `{Runtime} :
  forall (self : FmsService.t) (key contentType : string)
         (fileSize : Js.number) (history : list Sdk.Call)
         (client : Sdk.S3Client) (input : Sdk.PutObject.Input)
         (expiresIn : Z),
    In (Sdk.getSignedUrl client (Sdk.PutObjectCommand input) expiresIn)
       (calls (FmsService.getPreSignedURL self key contentType fileSize)
          history) ->
    In (Sdk.PutObject.ContentType input) ALLOWED_MIME_TYPES
    /\ PrimFloat.is_finite (Sdk.PutObject.ContentLength input) = true
    /\ Js.lt 0%float (Sdk.PutObject.ContentLength input) = true
    /\ Js.le (Sdk.PutObject.ContentLength input) MAX_FILE_SIZE_BYTES = true.
Proof.
  intros self key contentType fileSize history client input expiresIn Hin.
  destruct (getPreSignedURL_calls self key contentType fileSize history)
    as [[_ Hnone] | [(Hct & Hpos & Hle) Hone]].
  - rewrite Hnone in Hin. destruct Hin.
  - rewrite Hone in Hin. destruct Hin as [Heq | []].
    unfold put_command in Heq. injection Heq as _ <- _. simpl.
    split; [exact Hct |].
    split; [now apply accepted_is_finite |]. now split.
Qed.

(** X12, for the signing call of a one-kilobyte PNG. *)
Lemma signed_uploads_are_within_limits_witness :
  In "image/png" ALLOWED_MIME_TYPES
  /\ PrimFloat.is_finite 1024%float = true
  /\ Js.lt 0%float 1024%float = true
  /\ Js.le 1024%float MAX_FILE_SIZE_BYTES = true.
Proof.
  apply (signed_uploads_are_within_limits (H := Sample.runtime)
           Sample.docker "k" "image/png" 1024%float []
           (FmsService.s3Client Sample.docker)
           {| Sdk.PutObject.Bucket := "demo-bucket";
              Sdk.PutObject.Key := "k";
              Sdk.PutObject.ContentType := "image/png";
              Sdk.PutObject.ContentLength := 1024%float |}
           1800%Z).
  left. reflexivity.
Defined.

(** ** The upload endpoint as a whole *)


(** X14: for every request, a [BadRequestException] from [getPreSignedURL]
    means that no SDK call was made, and any other outcome, a URL or an
    error of the SDK, means that exactly one was made. *)
Theorem getPreSignedURL_outcome_and_calls `{Runtime} :
  forall (self : FmsService.t) (key contentType : string)
         (fileSize : Js.number) (history : list Sdk.Call),
    match outcome (FmsService.getPreSignedURL self key contentType fileSize)
            history with
    | Thrown (BadRequestException _) =>
        calls (FmsService.getPreSignedURL self key contentType fileSize)
          history = []
    | Thrown (SdkError _) | Returned _ =>
        length
          (calls (FmsService.getPreSignedURL self key contentType fileSize)
             history) = 1
    end.
Proof.
  intros self key contentType fileSize history. unfold outcome, calls.
  destruct (validateContentType_cases contentType)
    as [[Hin Hct] | [_ [m Hct]]].
  - destruct (validateFileSize_cases fileSize)
      as [(_ & _ & Hfs) | [(_ & Hfs) | (_ & _ & _ & m & Hfs)]].
    + rewrite (getPreSignedURL_signs _ _ _ _ _ Hct Hfs). unfold signed.
      simpl. destruct (getSignedUrl_answer _ _ _ _); reflexivity.
    + now rewrite (getPreSignedURL_thrown_fileSize _ _ _ _ _ _ Hct Hfs).
    + now rewrite (getPreSignedURL_thrown_fileSize _ _ _ _ _ _ Hct Hfs).
  - now rewrite (getPreSignedURL_thrown_contentType _ _ _ _ _ _ Hct).
Qed.
